(** * email-sender: a shallow embedding of [main.py]

    The web application accepts a JSON document on [POST /emails], checks a
    shared secret, and hands the message to Mailgun, falling back to Mandrill
    when the Mailgun attempt raises.  Both provider functions are wrapped in a
    circuit breaker.

    Python code with side effects is embedded as state-passing functions that
    return either a value or the exception that was raised. *)

From stdpp Require Import gmap strings list.
From Stdlib Require Import ZArith Lia.

Local Open Scope string_scope.
Local Open Scope Z_scope.

(** ** Python values found in a JSON body *)

(** The scalar values a decoded JSON document can carry. *)
Inductive pyval : Type :=
| PNone
| PBool (b : bool)
| PInt (n : Z)
| PStr (s : string).

(** Python's [==] on these values: [bool] is a subclass of [int], so
    [True == 1]; values of unrelated types are never equal. *)
Definition py_eq (a b : pyval) : bool :=
  match a, b with
  | PNone, PNone => true
  | PBool x, PBool y => Bool.eqb x y
  | PBool x, PInt n | PInt n, PBool x => Z.eqb (Z.b2z x) n
  | PInt n, PInt m => Z.eqb n m
  | PStr s, PStr t => String.eqb s t
  | _, _ => false
  end.

(** Python's truth value, as tested by [if raise_error:]. *)
Definition truthy (v : pyval) : bool :=
  match v with
  | PNone => false
  | PBool b => b
  | PInt n => negb (Z.eqb n 0)
  | PStr s => negb (String.eqb s "")
  end.

(** [d.get(k)]: the value, or [None] when the key is absent. *)
Definition dict_get (d : gmap string pyval) (k : string) : pyval :=
  default PNone (d !! k).

(** A value that is a string or [None] ([self.api_key]), as a Python value. *)
Definition of_opt_str (o : option string) : pyval :=
  match o with
  | Some s => PStr s
  | None => PNone
  end.

(** ** Exceptions, events, and the state the code runs in *)

Inductive provider : Type := Mailgun | Mandrill.

Inductive exn : Type :=
| RuntimeError (msg : string)
| KeyError (key : string)
| ConnectionError
| HTTPError (status : Z)
| MandrillError (status : Z)
| CircuitBreakerError (msg : string)
| HTTPNotFound
| HTTPBadRequest (title description : string).

(** The five fields of an email, as taken from the body. *)
Record message : Type := Message {
  sender : pyval;
  receiver : pyval;
  subject : pyval;
  text : pyval;
  html : pyval
}.

Inductive level : Type := INFO | ERROR.

(** What the code does to the outside world.  [Invoke p] is a ghost event: it
    records that the decorated callable of provider [p] was entered, the
    counterpart of [mock.called] in the tests. *)
Inductive event : Type :=
| Invoke (p : provider)
| EnvRead (name : string)
| HttpPost (url : string) (user api_key : string) (data : message)
| MandrillSend (api_key : string) (msg : message)
| Log (lvl : level) (text : string).

(** What the network answers to one outbound request. *)
Inductive reply : Type :=
| Status (code : Z)
| Unreachable.

(** Everything outside the breakers: [os.environ], the wall clock, the
    replies the network will give to the next outbound requests (none left:
    the request cannot be delivered), and the events so far, newest first. *)
Record ext : Type := Ext {
  environ : gmap string string;
  clock : Z;
  replies : list reply;
  trace : list event
}.

Inductive outcome (A : Type) : Type :=
| Ok (a : A)
| Raise (e : exn).
Arguments Ok {A} a.
Arguments Raise {A} e.

(** A computation over state [S] that returns or raises. *)
Definition ST (S A : Type) : Type := S -> outcome A * S.

Definition ret {S A} (a : A) : ST S A := fun s => (Ok a, s).

Definition raise {S A} (e : exn) : ST S A := fun s => (Raise e, s).

Definition bind {S A B} (m : ST S A) (k : A -> ST S B) : ST S B :=
  fun s =>
    match m s with
    | (Ok a, s') => k a s'
    | (Raise e, s') => (Raise e, s')
    end.

(** [try: m  except: h exc] *)
Definition try_except {S A} (m : ST S A) (h : exn -> ST S A) : ST S A :=
  fun s =>
    match m s with
    | (Ok a, s') => (Ok a, s')
    | (Raise e, s') => h e s'
    end.

Declare Scope py_scope.
Delimit Scope py_scope with py.
Notation "x <~ m ;; k" := (bind m (fun x => k))
  (at level 100, m at next level, right associativity) : py_scope.
Notation "m ;;; k" := (bind m (fun _ => k))
  (at level 100, right associativity) : py_scope.
Local Open Scope py_scope.

Definition emit (e : event) (x : ext) : ext :=
  {| environ := environ x; clock := clock x; replies := replies x;
     trace := e :: trace x |}.

Definition tick (e : event) : ST ext unit := fun x => (Ok tt, emit e x).

(** [os.environ[name]] *)
Definition os_environ (name : string) : ST ext string :=
  fun x =>
    match environ x !! name with
    | Some v => (Ok v, emit (EnvRead name) x)
    | None => (Raise (KeyError name), emit (EnvRead name) x)
    end.

(** One outbound request: consumes the next reply of the network. *)
Definition next_reply (e : event) : ST ext reply :=
  fun x =>
    match replies x with
    | r :: rs =>
        (Ok r, {| environ := environ x; clock := clock x; replies := rs;
                  trace := e :: trace x |})
    | [] => (Ok Unreachable, emit e x)
    end.

(** ** The provider functions, before decoration *)

Definition mailgun_url (domain : string) : string :=
  "https://api.mailgun.net/v3/" +:+ domain +:+ "/messages".

(** Body of [send_with_mailgun] (main.py, lines 59-68). *)
Definition mailgun_body (m : message) (raise_error : pyval) : ST ext unit :=
  if truthy raise_error
  then raise (RuntimeError "Forcing mailgun to fail to test fallback.")
  else
    domain <~ os_environ "MAILGUN_DOMAIN" ;;
    api_key <~ os_environ "MAILGUN_API_KEY" ;;
    resp <~ next_reply (HttpPost (mailgun_url domain) "api" api_key m) ;;
    match resp with
    | Unreachable => raise ConnectionError
    | Status code =>
        (* resp.raise_for_status() *)
        if (400 <=? code) && (code <? 600) then raise (HTTPError code)
        else ret tt
    end.

(** Body of [send_with_mandrill] (main.py, lines 83-87).  The Mandrill client
    raises for every answer other than 200. *)
Definition mandrill_body (m : message) : ST ext unit :=
  api_key <~ os_environ "MANDRILL_API_KEY" ;;
  resp <~ next_reply (MandrillSend api_key m) ;;
  match resp with
  | Unreachable => raise ConnectionError
  | Status code =>
      if code =? 200 then ret tt else raise (MandrillError code)
  end.

(** ** The circuit breaker *)

(** Modelled from the spec: the three states of a breaker (section 3); the
    class [pybreaker.CircuitBreaker] is a library outside the sources. *)
Inductive cb_state : Type := Closed | Open | HalfOpen.

(** The arguments of [pybreaker.CircuitBreaker(...)] (main.py, lines 42-43);
    [breaker_name] is the name given to the breaker's [LogListener]. *)
Record CircuitBreaker : Type := {
  fail_max : nat;
  reset_timeout : Z;
  breaker_name : string
}.

Definition breaker_of (p : provider) : CircuitBreaker :=
  match p with
  | Mailgun =>
      {| fail_max := 5; reset_timeout := 60; breaker_name := "mailgun" |}
  | Mandrill =>
      {| fail_max := 5; reset_timeout := 60; breaker_name := "mandrill" |}
  end.

(** Modelled from the spec: the state of a [pybreaker.CircuitBreaker], a
    library that is not part of the sources.  Section 3 of the specification
    gives it as failure count, state and last-failure timestamp. *)
Record breaker : Type := Breaker {
  fail_counter : nat;
  state : cb_state;
  last_failure : Z
}.

(** Modelled from the spec: a breaker as the module creates it, closed and
    with no failure counted. *)
Definition new_breaker : breaker :=
  {| fail_counter := 0; state := Closed; last_failure := 0 |}.

(** The process: the two module-level breakers and everything else. *)
Record world : Type := World {
  mailgun_breaker : breaker;
  mandrill_breaker : breaker;
  outside : ext
}.

Definition get_breaker (p : provider) (w : world) : breaker :=
  match p with
  | Mailgun => mailgun_breaker w
  | Mandrill => mandrill_breaker w
  end.

Definition set_breaker (p : provider) (b : breaker) (x : ext) (w : world)
  : world :=
  match p with
  | Mailgun =>
      {| mailgun_breaker := b; mandrill_breaker := mandrill_breaker w;
         outside := x |}
  | Mandrill =>
      {| mailgun_breaker := mailgun_breaker w; mandrill_breaker := b;
         outside := x |}
  end.

(** Run a computation on the outside world, leaving the breakers alone. *)
Definition lift {A} (m : ST ext A) : ST world A :=
  fun w =>
    let '(r, x) := m (outside w) in
    (r, {| mailgun_breaker := mailgun_breaker w;
           mandrill_breaker := mandrill_breaker w; outside := x |}).

(** [LogListener] (main.py, lines 18-38): one log line per breaker event. *)
Definition before_call (breaker_name : string) : event :=
  Log INFO ("Attempting " +:+ breaker_name +:+ " circuit breaker").

Definition failure (breaker_name : string) : event :=
  Log ERROR (breaker_name +:+ " circuit breaker failed").

Definition success (breaker_name : string) : event :=
  Log INFO (breaker_name +:+ " circuit breaker call was successful.").

(** Modelled from the spec: the breaker after the wrapped function
    returned; section 4.1, a success resets the failure count and closes the
    gate. *)
Definition on_success (b : breaker) : breaker :=
  {| fail_counter := 0; state := Closed; last_failure := last_failure b |}.

(** Modelled from the spec: the breaker after the wrapped function raised at
    time [now]; section 4.1, a failure increments the failure count and opens
    the gate once the threshold is reached; section 3, a failure of the trial
    call opens it again. *)
Definition on_failure (cb : CircuitBreaker) (now : Z) (b : breaker) : breaker :=
  let n := S (fail_counter b) in
  {| fail_counter := n;
     state := match state b with
              | HalfOpen => Open
              | _ => if (fail_max cb <=? n)%nat then Open else state b
              end;
     last_failure := now |}.

(** Modelled from the spec: a call that goes through to the wrapped function
    [fn] (section 4.1).  The listeners log the attempt and its outcome, the
    breaker records the outcome, and the result or the exception of [fn] is
    handed on. *)
Definition guarded {A} (p : provider) (fn : ST ext A) : ST world A :=
  fun w =>
    let cb := breaker_of p in
    let b := get_breaker p w in
    match fn (emit (before_call (breaker_name cb)) (outside w)) with
    | (Ok a, x) =>
        (Ok a, set_breaker p (on_success b) (emit (success (breaker_name cb)) x) w)
    | (Raise e, x) =>
        (Raise e,
         set_breaker p (on_failure cb (clock x) b)
           (emit (failure (breaker_name cb)) x) w)
    end.

(** Modelled from the spec: the breaker about to let its trial call through
    (section 3, open to half-open after the cooldown). *)
Definition half_open (b : breaker) : breaker :=
  {| fail_counter := fail_counter b; state := HalfOpen;
     last_failure := last_failure b |}.

(** Modelled from the spec: [CircuitBreaker.call] of pybreaker, which is not
    part of the sources.  Section 4.1: the call invokes [fn]; a success resets
    the failure count and closes the gate; a failure increments the count and
    opens the gate once the threshold is reached; while open the call fails
    at once with a circuit-open error and does not invoke [fn], until the
    reset timeout has elapsed, after which one trial call is let through
    (half-open) and its outcome decides the next state. *)
Definition call {A} (p : provider) (fn : ST ext A) : ST world A :=
  fun w =>
    let cb := breaker_of p in
    let b := get_breaker p w in
    match state b with
    | Open =>
        if clock (outside w) <? last_failure b + reset_timeout cb
        then (Raise (CircuitBreakerError
                       "Timeout not elapsed yet, circuit breaker still open"),
              w)
        else guarded p fn (set_breaker p (half_open b) (outside w) w)
    | _ => guarded p fn w
    end.

(** ** The decorated provider functions and the dispatcher *)

(** [@mailgun_breaker def send_with_mailgun(...)] (main.py, lines 46-47). *)
Definition send_with_mailgun (m : message) (raise_error : pyval)
  : ST world unit :=
  lift (tick (Invoke Mailgun)) ;;;
  call Mailgun (mailgun_body m raise_error).

(** [@mandrill_breaker def send_with_mandrill(...)] (main.py, lines 71-72). *)
Definition send_with_mandrill (m : message) : ST world unit :=
  lift (tick (Invoke Mandrill)) ;;;
  call Mandrill (mandrill_body m).

(** [send] (main.py, lines 104-107): the bare [except:] catches everything. *)
Definition send (m : message) (fallback : pyval) : ST world unit :=
  try_except (send_with_mailgun m fallback)
             (fun _ => send_with_mandrill m).

(** ** The request handler *)

Record EmailsResource : Type := { api_key : option string }.

(** [EmailsResource.__init__] (main.py, line 124):
    [self.api_key = api_key or os.getenv('API_KEY')]. *)
Definition EmailsResource_init (key : option string)
    (env : gmap string string) : EmailsResource :=
  {| api_key := match key with
                | Some s => if String.eqb s "" then env !! "API_KEY" else Some s
                | None => env !! "API_KEY"
                end |}.

(** [d[k]], raising [KeyError] when the key is absent. *)
Definition getitem {S} (d : gmap string pyval) (k : string) : ST S pyval :=
  match d !! k with
  | Some v => ret v
  | None => raise (KeyError k)
  end.

(** [str(exc)] for the exceptions the handler formats: a [KeyError] prints
    the repr of its key. *)
Definition str_exn (e : exn) : string :=
  match e with
  | KeyError k => "'" +:+ k +:+ "'"
  | RuntimeError msg | CircuitBreakerError msg => msg
  | _ => ""
  end.

Definition HTTP_204 : Z := 204.

(** [EmailsResource.on_post] (main.py, lines 126-147); the value returned is
    [resp.status].  The body [doc] is [req.context['doc']]; the two log lines
    are kept without their arguments. *)
Definition on_post (self : EmailsResource) (doc : gmap string pyval)
  : ST world Z :=
  if negb (py_eq (dict_get doc "key") (of_opt_str (api_key self)))
  then raise HTTPNotFound
  else
    try_except
      (sender <~ getitem doc "sender" ;;
       receiver <~ getitem doc "receiver" ;;
       subject <~ getitem doc "subject" ;;
       text <~ getitem doc "text" ;;
       html <~ getitem doc "html" ;;
       send (Message sender receiver subject text html)
            (dict_get doc "fallback"))
      (fun exc =>
         match exc with
         | KeyError _ =>
             lift (tick (Log ERROR "Missing field from body")) ;;;
             raise (HTTPBadRequest "Missing field"
                      (str_exn exc +:+ " is missing from the body."))
         | _ =>
             lift (tick (Log ERROR "Unexpected exception.")) ;;;
             raise exc
         end) ;;;
    ret HTTP_204.

(** What the web framework (falcon, outside the sources) sends for the
    outcome of a responder, with the statuses of section 6 of the
    specification: the status the responder set, 404 for [HTTPNotFound], 400
    for [HTTPBadRequest], and a server error for any other exception. *)
Definition http_status (r : outcome Z) : Z :=
  match r with
  | Ok status => status
  | Raise HTTPNotFound => 404
  | Raise (HTTPBadRequest _ _) => 400
  | Raise _ => 500
  end.

(** ** Vocabulary of the properties *)

(** The request carries the configured secret: the comparison of line 128
    does not reject it. *)
Definition authorized (self : EmailsResource) (doc : gmap string pyval) : Prop :=
  py_eq (dict_get doc "key") (of_opt_str (api_key self)) = true.

(** The order in which the handler looks the required fields up. *)
Definition required_fields : list string :=
  ["sender"; "receiver"; "subject"; "text"; "html"].

(** The first required field that the body lacks, if any. *)
Definition first_missing (doc : gmap string pyval) : option string :=
  List.find (fun k => match doc !! k with Some _ => false | None => true end)
            required_fields.

(** The message of a body that has all five required fields. *)
Definition message_of (doc : gmap string pyval) : option message :=
  match doc !! "sender", doc !! "receiver", doc !! "subject",
        doc !! "text", doc !! "html" with
  | Some s, Some r, Some j, Some t, Some h => Some (Message s r j t h)
  | _, _, _, _, _ => None
  end.

Definition is_invoke (p : provider) (e : event) : bool :=
  match e, p with
  | Invoke Mailgun, Mailgun | Invoke Mandrill, Mandrill => true
  | _, _ => false
  end.

(** How often the decorated callable of provider [p] has been entered. *)
Definition invocations (p : provider) (w : world) : nat :=
  length (List.filter (is_invoke p) (trace (outside w))).

(** An event that reaches outside the process: a read of the environment or
    an outbound request. *)
Definition reaches_out (e : event) : bool :=
  match e with
  | EnvRead _ | HttpPost _ _ _ _ | MandrillSend _ _ => true
  | Invoke _ | Log _ _ => false
  end.

(** The world once the decorated callable of [p] has been entered. *)
Definition entered (p : provider) (w : world) : world :=
  snd (lift (tick (Invoke p)) w).

(** The world once the handler has logged [text] as an error. *)
Definition logged (text : string) (w : world) : world :=
  snd (lift (tick (Log ERROR text)) w).

(** The bad request with which the handler answers [KeyError k]. *)
Definition missing_field (k : string) : exn :=
  HTTPBadRequest "Missing field"
    (str_exn (KeyError k) +:+ " is missing from the body.").

(** What the handler makes of the outcome of [send] (main.py, lines
    140-147). *)
Definition handled (r : outcome unit * world) : outcome Z * world :=
  match r with
  | (Ok _, w) => (Ok HTTP_204, w)
  | (Raise (KeyError k), w) =>
      (Raise (missing_field k), logged "Missing field from body" w)
  | (Raise e, w) => (Raise e, logged "Unexpected exception." w)
  end.

(** An exception of the kind the provider functions and the breakers raise,
    none of them an HTTP error of the framework. *)
Definition provider_error (e : exn) : Prop :=
  match e with
  | HTTPNotFound | HTTPBadRequest _ _ => False
  | _ => True
  end.

(** Consecutive calls through the breaker of [p] that all ended in an
    exception.  Between two calls anything may happen to the world except a
    change to this breaker. *)
Inductive failed_calls (p : provider) : nat -> world -> world -> Prop :=
| failed_none w : failed_calls p 0 w w
| failed_more n w (fn : ST ext unit) e w1 w1' w2 :
    call p fn w = (Raise e, w1) ->
    get_breaker p w1' = get_breaker p w1 ->
    failed_calls p n w1' w2 ->
    failed_calls p (S n) w w2.

(** Consecutive requests, each with the secret, all five fields and a true
    [fallback].  Between two requests anything may happen to the world except
    a change to the Mailgun breaker. *)
Inductive forced_requests (self : EmailsResource)
  : nat -> world -> world -> Prop :=
| forced_none w : forced_requests self 0 w w
| forced_more n w doc m r w1 w1' w2 :
    authorized self doc ->
    message_of doc = Some m ->
    truthy (dict_get doc "fallback") = true ->
    on_post self doc w = (r, w1) ->
    mailgun_breaker w1' = mailgun_breaker w1 ->
    forced_requests self n w1' w2 ->
    forced_requests self (S n) w w2.

(** What [k] consecutive failed calls leave behind: an open breaker, or at
    least [k] counted failures below the threshold. *)
Definition after_failures (cb : CircuitBreaker) (k : nat) (b : breaker) : Prop :=
  k = 0%nat \/ state b = Open \/ (k <= fail_counter b < fail_max cb)%nat.

(** A computation that enters no decorated callable. *)
Definition silent {A} (fn : ST ext A) : Prop :=
  forall x q,
    List.filter (is_invoke q) (trace (snd (fn x))) =
    List.filter (is_invoke q) (trace x).

(** An outbound request to Mailgun, and one to Mandrill. *)
Definition is_post (e : event) : bool :=
  match e with
  | HttpPost _ _ _ _ => true
  | _ => false
  end.

Definition is_mandrill_send (e : event) : bool :=
  match e with
  | MandrillSend _ _ => true
  | _ => false
  end.

(** How many events of the trace satisfy [f]. *)
Definition count_events (f : event -> bool) (w : world) : nat :=
  length (List.filter f (trace (outside w))).

(** A computation that adds at most [n] events satisfying [f]. *)
Definition adds_at_most {A} (f : event -> bool) (n : nat) (fn : ST ext A)
  : Prop :=
  forall x,
    (length (List.filter f (trace (snd (fn x)))) <=
     length (List.filter f (trace x)) + n)%nat.

(** A computation that leaves [os.environ] as it is. *)
Definition keeps_environ {A} (fn : ST ext A) : Prop :=
  forall x, environ (snd (fn x)) = environ x.

(** The status with which a request is answered, read off the key, the
    fields and the outcome of [send]. *)
Definition answer (self : EmailsResource) (doc : gmap string pyval) (w : world)
  : Z :=
  if negb (py_eq (dict_get doc "key") (of_opt_str (api_key self))) then 404
  else
    match message_of doc with
    | None => 400
    | Some m =>
        match fst (send m (dict_get doc "fallback") w) with
        | Ok _ => 204
        | Raise (KeyError _) => 400
        | Raise _ => 500
        end
    end.

(** The handler built at module level (main.py, line 154):
    [EmailsResource()]. *)
Definition app_resource (env : gmap string string) : EmailsResource :=
  EmailsResource_init None env.

(** ** Sample data

    The resource and the body of [tests.py], and worlds to run them in. *)

Definition request_body : gmap string pyval :=
  list_to_map
    [("sender", PStr "test@test.com"); ("receiver", PStr "test@test.com");
     ("subject", PStr "Example"); ("text", PStr "A text example");
     ("html", PStr "A html example")].

Definition test_message : message :=
  Message (PStr "test@test.com") (PStr "test@test.com") (PStr "Example")
          (PStr "A text example") (PStr "A html example").

(** [main.EmailsResource(api_key='abc')] *)
Definition resource : EmailsResource := EmailsResource_init (Some "abc") ∅.

(** The body with the key of [resource]. *)
Definition keyed_body : gmap string pyval := <["key" := PStr "abc"]> request_body.

(** The same with [fallback] set. *)
Definition forced_body : gmap string pyval :=
  <["fallback" := PBool true]> keyed_body.

(** An environment with the settings of both providers. *)
Definition both_configured : gmap string string :=
  list_to_map
    [("MAILGUN_DOMAIN", "example.org"); ("MAILGUN_API_KEY", "key-mailgun");
     ("MANDRILL_API_KEY", "key-mandrill")].

(** An environment in which the Mandrill key was forgotten. *)
Definition mailgun_configured : gmap string string :=
  list_to_map
    [("MAILGUN_DOMAIN", "example.org"); ("MAILGUN_API_KEY", "key-mailgun")].

(** The process right after start, at time [now], in environment [env], with
    the network about to give the replies [rs]. *)
Definition start (env : gmap string string) (now : Z) (rs : list reply)
  : world :=
  {| mailgun_breaker := new_breaker; mandrill_breaker := new_breaker;
     outside := {| environ := env; clock := now; replies := rs; trace := [] |} |}.

(** The world at another time, with other replies to come. *)
Definition later (now : Z) (rs : list reply) (w : world) : world :=
  {| mailgun_breaker := mailgun_breaker w;
     mandrill_breaker := mandrill_breaker w;
     outside := {| environ := environ (outside w); clock := now;
                   replies := rs; trace := trace (outside w) |} |}.

(** The world after [n] calls of [fn] through the breaker of [p]. *)
Definition after_calls (p : provider) (fn : ST ext unit) (n : nat) (w : world)
  : world :=
  Nat.iter n (fun w => snd (call p fn w)) w.

(** The world after [n] requests with body [doc]. *)
Definition after_requests (self : EmailsResource) (doc : gmap string pyval)
    (n : nat) (w : world) : world :=
  Nat.iter n (fun w => snd (on_post self doc w)) w.

(** ** Equations of the monad and of the effects *)

(** Case analysis over everything the body of a provider function can meet:
    the flag, the environment, the reply of the network. *)
Ltac run_body :=
  unfold mailgun_body, mandrill_body, bind, os_environ, next_reply, raise, ret;
  repeat match goal with
    | |- context [truthy ?v] => destruct (truthy v)
    | |- context [environ ?x !! ?k] => destruct (environ x !! k)
    | |- context [replies ?x] => destruct (replies x) as [|[]]
    | |- context [(?a <=? ?b) && (?c <? ?d)] => destruct ((a <=? b) && (c <? d))
    | |- context [?a =? ?b] => destruct (a =? b)
    end; simpl.

Lemma try_ok {S A} (m : ST S A) h s a s' :
  m s = (Ok a, s') -> try_except m h s = (Ok a, s').
Proof. intros H. unfold try_except. now rewrite H. Qed.

Lemma try_raise {S A} (m : ST S A) h s e s' :
  m s = (Raise e, s') -> try_except m h s = h e s'.
Proof. intros H. unfold try_except. now rewrite H. Qed.

Lemma message_of_fields doc m :
  message_of doc = Some m ->
  doc !! "sender" = Some (sender m) /\ doc !! "receiver" = Some (receiver m) /\
  doc !! "subject" = Some (subject m) /\ doc !! "text" = Some (text m) /\
  doc !! "html" = Some (html m).
Proof.
  unfold message_of.
  destruct (doc !! "sender"), (doc !! "receiver"), (doc !! "subject"),
    (doc !! "text"), (doc !! "html"); try discriminate.
  intros [= <-]. now repeat split.
Qed.

Lemma send_with_mailgun_unfold m r w :
  send_with_mailgun m r w = call Mailgun (mailgun_body m r) (entered Mailgun w).
Proof. reflexivity. Qed.

Lemma send_with_mandrill_unfold m w :
  send_with_mandrill m w = call Mandrill (mandrill_body m) (entered Mandrill w).
Proof. reflexivity. Qed.

(** The handler, once the key has been accepted and the five fields found:
    the outcome of [send], with a [KeyError] turned into a bad request. *)
Lemma on_post_dispatch self doc m w :
  authorized self doc ->
  message_of doc = Some m ->
  on_post self doc w = handled (send m (dict_get doc "fallback") w).
Proof.
  intros Hkey Hm. unfold authorized in Hkey.
  destruct (message_of_fields _ _ Hm) as (Hs & Hr & Hj & Ht & Hh).
  destruct m as [s r j t h]. simpl in *.
  unfold on_post. rewrite Hkey. cbn [negb].
  unfold bind, try_except, getitem. rewrite Hs, Hr, Hj, Ht, Hh. unfold ret.
  destruct (send _ _ w) as [[[]|e] w']; [reflexivity|].
  destruct e; reflexivity.
Qed.

(** ** The breaker *)

Lemma get_set_breaker p b x w : get_breaker p (set_breaker p b x w) = b.
Proof. now destruct p. Qed.

Lemma outside_set_breaker p b x w : outside (set_breaker p b x w) = x.
Proof. now destruct p. Qed.

Lemma get_set_breaker_other p q b x w :
  p <> q -> get_breaker q (set_breaker p b x w) = get_breaker q w.
Proof. intros H. destruct p, q; try reflexivity; now destruct H. Qed.

Lemma reset_timeout_60 p : reset_timeout (breaker_of p) = 60.
Proof. now destruct p. Qed.

Lemma fail_max_5 p : fail_max (breaker_of p) = 5%nat.
Proof. now destruct p. Qed.

(** An open breaker whose timeout has not elapsed rejects the call and leaves
    the world as it is: the wrapped function plays no part. *)
Lemma call_rejected {A} p (fn : ST ext A) w :
  state (get_breaker p w) = Open ->
  clock (outside w) < last_failure (get_breaker p w) + 60 ->
  call p fn w =
    (Raise (CircuitBreakerError
              "Timeout not elapsed yet, circuit breaker still open"), w).
Proof.
  intros Hopen Hnow. unfold call. rewrite Hopen, reset_timeout_60.
  apply Z.ltb_lt in Hnow. now rewrite Hnow.
Qed.

(** Every call that is not rejected runs the wrapped function once, from the
    breaker as it is or from the half-open breaker of a trial. *)
Lemma call_cases {A} p (fn : ST ext A) w :
  (state (get_breaker p w) = Open /\
   clock (outside w) < last_failure (get_breaker p w) + 60 /\
   call p fn w =
     (Raise (CircuitBreakerError
               "Timeout not elapsed yet, circuit breaker still open"), w)) \/
  (state (get_breaker p w) = Open /\
   last_failure (get_breaker p w) + 60 <= clock (outside w) /\
   call p fn w =
     guarded p fn (set_breaker p (half_open (get_breaker p w)) (outside w) w)) \/
  (state (get_breaker p w) <> Open /\ call p fn w = guarded p fn w).
Proof.
  destruct (state (get_breaker p w)) eqn:Hst.
  - right. right. split; [discriminate|]. unfold call. now rewrite Hst.
  - destruct (Z.ltb_spec (clock (outside w)) (last_failure (get_breaker p w) + 60))
      as [Hlt|Hge].
    + left. repeat split; [assumption|]. now apply call_rejected.
    + right. left. repeat split; [assumption|].
      unfold call. rewrite Hst, reset_timeout_60.
      apply Z.ltb_ge in Hge. now rewrite Hge.
  - right. right. split; [discriminate|]. unfold call. now rewrite Hst.
Qed.

Lemma guarded_ok {A} p (fn : ST ext A) w a x :
  fn (emit (before_call (breaker_name (breaker_of p))) (outside w)) = (Ok a, x) ->
  guarded p fn w =
    (Ok a, set_breaker p (on_success (get_breaker p w))
             (emit (success (breaker_name (breaker_of p))) x) w).
Proof. intros H. unfold guarded. now rewrite H. Qed.

Lemma guarded_raise {A} p (fn : ST ext A) w e x :
  fn (emit (before_call (breaker_name (breaker_of p))) (outside w)) = (Raise e, x) ->
  guarded p fn w =
    (Raise e, set_breaker p (on_failure (breaker_of p) (clock x) (get_breaker p w))
                (emit (failure (breaker_name (breaker_of p))) x) w).
Proof. intros H. unfold guarded. now rewrite H. Qed.

(** A call that raises out of [guarded] did so because the wrapped function
    raised, and the breaker counted it. *)
Lemma guarded_raised {A} p (fn : ST ext A) w e w1 :
  guarded p fn w = (Raise e, w1) ->
  exists x,
    fn (emit (before_call (breaker_name (breaker_of p))) (outside w)) = (Raise e, x) /\
    w1 = set_breaker p (on_failure (breaker_of p) (clock x) (get_breaker p w))
           (emit (failure (breaker_name (breaker_of p))) x) w.
Proof.
  unfold guarded.
  destruct (fn _) as [[a|e'] x]; intros [= <- <-]; eauto.
Qed.

Lemma on_failure_after cb k now b :
  after_failures cb k b -> state b <> Open ->
  after_failures cb (S k) (on_failure cb now b).
Proof.
  intros Hk Hst. unfold after_failures, on_failure. simpl.
  destruct (state b) eqn:Hs; [|congruence|now right; left].
  destruct (Nat.leb_spec (fail_max cb) (S (fail_counter b))) as [Hle|Hlt].
  - now right; left.
  - right. right. destruct Hk as [->|[Ho|Hk]]; [lia|congruence|lia].
Qed.

(** One more failed call, one more step towards the open breaker. *)
Lemma call_failed_after {A} p (fn : ST ext A) w e w1 k :
  call p fn w = (Raise e, w1) ->
  after_failures (breaker_of p) k (get_breaker p w) ->
  after_failures (breaker_of p) (S k) (get_breaker p w1).
Proof.
  intros Hcall Hk.
  destruct (call_cases p fn w) as [(Ho & _ & Hc)|[(Ho & _ & Hc)|(Hn & Hc)]];
    rewrite Hc in Hcall.
  - injection Hcall as _ <-. now right; left.
  - apply guarded_raised in Hcall as (x & _ & ->).
    rewrite get_set_breaker, !get_set_breaker. now right; left.
  - apply guarded_raised in Hcall as (x & _ & ->).
    rewrite get_set_breaker. now apply on_failure_after.
Qed.

Lemma failed_calls_after p n w w' :
  failed_calls p n w w' ->
  forall k, after_failures (breaker_of p) k (get_breaker p w) ->
            after_failures (breaker_of p) (k + n) (get_breaker p w').
Proof.
  induction 1 as [w|n w fn e w1 w1' w2 Hcall Hsame _ IH]; intros k Hk.
  - now rewrite Nat.add_0_r.
  - replace (k + S n)%nat with (S k + n)%nat by lia.
    apply IH. rewrite Hsame. eapply call_failed_after; eassumption.
Qed.

Lemma after_failures_open p b :
  after_failures (breaker_of p) 5 b -> state b = Open.
Proof.
  unfold after_failures. rewrite fail_max_5. intros [?|[?|?]]; [lia|assumption|lia].
Qed.

(** ** What the provider functions leave in the trace *)

Lemma mailgun_body_silent m r : silent (mailgun_body m r).
Proof. intros x q. run_body; reflexivity. Qed.

Lemma mandrill_body_silent m : silent (mandrill_body m).
Proof. intros x q. run_body; reflexivity. Qed.

Lemma mailgun_body_error m r x e x' :
  mailgun_body m r x = (Raise e, x') -> provider_error e.
Proof. run_body; intros [= <- _]; exact I. Qed.

Lemma mandrill_body_error m x e x' :
  mandrill_body m x = (Raise e, x') -> provider_error e.
Proof. run_body; intros [= <- _]; exact I. Qed.

Lemma invocations_set_breaker q p b x w :
  invocations q (set_breaker p b x w) =
  length (List.filter (is_invoke q) (trace x)).
Proof. unfold invocations. now rewrite outside_set_breaker. Qed.

Lemma guarded_invocations {A} p (fn : ST ext A) w q :
  silent fn -> invocations q (snd (guarded p fn w)) = invocations q w.
Proof.
  intros Hfn. unfold guarded.
  pose proof (Hfn (emit (before_call (breaker_name (breaker_of p))) (outside w)) q)
    as Hq.
  destruct (fn _) as [[a|e] x]; simpl in *;
    rewrite invocations_set_breaker; simpl; now rewrite Hq.
Qed.

Lemma call_invocations {A} p (fn : ST ext A) w q :
  silent fn -> invocations q (snd (call p fn w)) = invocations q w.
Proof.
  intros Hfn.
  destruct (call_cases p fn w) as [(_ & _ & Hc)|[(_ & _ & Hc)|(_ & Hc)]];
    rewrite Hc; [reflexivity| |now apply guarded_invocations].
  rewrite guarded_invocations by assumption.
  now rewrite invocations_set_breaker.
Qed.

Lemma entered_same p w : invocations p (entered p w) = S (invocations p w).
Proof. now destruct p. Qed.

Lemma entered_other p q w :
  p <> q -> invocations q (entered p w) = invocations q w.
Proof. intros H. destruct p, q; try reflexivity; now destruct H. Qed.

(** One call of a decorated provider function is one invocation of that
    provider and none of the other, whatever its outcome. *)
Lemma send_with_mailgun_invocations m r w :
  invocations Mailgun (snd (send_with_mailgun m r w)) = S (invocations Mailgun w) /\
  invocations Mandrill (snd (send_with_mailgun m r w)) = invocations Mandrill w.
Proof.
  rewrite send_with_mailgun_unfold, !call_invocations
    by apply mailgun_body_silent.
  split; [apply entered_same|now apply entered_other].
Qed.

Lemma send_with_mandrill_invocations m w :
  invocations Mandrill (snd (send_with_mandrill m w)) = S (invocations Mandrill w) /\
  invocations Mailgun (snd (send_with_mandrill m w)) = invocations Mailgun w.
Proof.
  rewrite send_with_mandrill_unfold, !call_invocations
    by apply mandrill_body_silent.
  split; [apply entered_same|now apply entered_other].
Qed.

(** A call through one breaker leaves the other breaker alone. *)
Lemma guarded_other_breaker {A} p (fn : ST ext A) w q :
  p <> q -> get_breaker q (snd (guarded p fn w)) = get_breaker q w.
Proof.
  intros Hpq. unfold guarded.
  destruct (fn _) as [[a|e] x]; simpl; now apply get_set_breaker_other.
Qed.

Lemma call_other_breaker {A} p (fn : ST ext A) w q :
  p <> q -> get_breaker q (snd (call p fn w)) = get_breaker q w.
Proof.
  intros Hpq.
  destruct (call_cases p fn w) as [(_ & _ & Hc)|[(_ & _ & Hc)|(_ & Hc)]];
    rewrite Hc; [reflexivity| |now apply guarded_other_breaker].
  rewrite guarded_other_breaker by assumption.
  now apply get_set_breaker_other.
Qed.

Lemma call_error {A} p (fn : ST ext A) w e w' :
  (forall x e x', fn x = (Raise e, x') -> provider_error e) ->
  call p fn w = (Raise e, w') -> provider_error e.
Proof.
  intros Hfn Hcall.
  destruct (call_cases p fn w) as [(_ & _ & Hc)|[(_ & _ & Hc)|(_ & Hc)]];
    rewrite Hc in Hcall.
  - now injection Hcall as <- _.
  - apply guarded_raised in Hcall as (x & Hx & _). eapply Hfn, Hx.
  - apply guarded_raised in Hcall as (x & Hx & _). eapply Hfn, Hx.
Qed.

Lemma send_with_mailgun_error m r w e w' :
  send_with_mailgun m r w = (Raise e, w') -> provider_error e.
Proof. apply call_error, mailgun_body_error. Qed.

Lemma send_with_mandrill_error m w e w' :
  send_with_mandrill m w = (Raise e, w') -> provider_error e.
Proof. apply call_error, mandrill_body_error. Qed.

(** ** The dispatcher *)

Lemma send_primary_ok m fb w w1 :
  send_with_mailgun m fb w = (Ok tt, w1) -> send m fb w = (Ok tt, w1).
Proof. intros H. unfold send. now apply try_ok. Qed.

Lemma send_primary_raise m fb w e w1 :
  send_with_mailgun m fb w = (Raise e, w1) ->
  send m fb w = send_with_mandrill m w1.
Proof. intros H. unfold send. now rewrite (try_raise _ _ _ _ _ H). Qed.

(** The forced failure: a true [raise_error] makes the undecorated function
    raise at once, with the outside world untouched. *)
Lemma mailgun_body_forced m r x :
  truthy r = true ->
  mailgun_body m r x =
    (Raise (RuntimeError "Forcing mailgun to fail to test fallback."), x).
Proof. intros H. unfold mailgun_body. now rewrite H. Qed.

(** With a true [raise_error] the decorated function always raises. *)
Lemma send_with_mailgun_forced m r w :
  truthy r = true ->
  exists e w1, send_with_mailgun m r w = (Raise e, w1).
Proof.
  intros Hr. rewrite send_with_mailgun_unfold.
  destruct (call_cases Mailgun (mailgun_body m r) (entered Mailgun w))
    as [(_ & _ & Hc)|[(_ & _ & Hc)|(_ & Hc)]]; rewrite Hc; [eauto| |];
    erewrite guarded_raise by (now apply mailgun_body_forced); eauto.
Qed.

Lemma send_error m fb w e w' :
  send m fb w = (Raise e, w') -> provider_error e.
Proof.
  unfold send, try_except.
  destruct (send_with_mailgun m fb w) as [[[]|e1] w1]; [discriminate|].
  apply send_with_mandrill_error.
Qed.

(** ** The handler *)

(** A key that does not compare equal is answered with [HTTPNotFound] before
    anything else is looked at. *)
Lemma on_post_rejected self doc w :
  py_eq (dict_get doc "key") (of_opt_str (api_key self)) = false ->
  on_post self doc w = (Raise HTTPNotFound, w).
Proof. intros H. unfold on_post. now rewrite H. Qed.

Lemma on_post_invocations self doc m w q :
  authorized self doc ->
  message_of doc = Some m ->
  invocations q (snd (on_post self doc w)) =
  invocations q (snd (send m (dict_get doc "fallback") w)).
Proof.
  intros Hkey Hm. rewrite (on_post_dispatch _ _ _ _ Hkey Hm).
  destruct (send _ _ w) as [[[]|e] w']; [reflexivity|].
  destruct e; reflexivity.
Qed.

Lemma on_post_breaker self doc m w p :
  authorized self doc ->
  message_of doc = Some m ->
  get_breaker p (snd (on_post self doc w)) =
  get_breaker p (snd (send m (dict_get doc "fallback") w)).
Proof.
  intros Hkey Hm. rewrite (on_post_dispatch _ _ _ _ Hkey Hm).
  destruct (send _ _ w) as [[[]|e] w']; [reflexivity|].
  destruct e, p; reflexivity.
Qed.

(** Both providers raised: the handler answers with the second exception,
    unless that one is a [KeyError]. *)
Lemma on_post_both_raise self doc m w e1 w1 e2 w2 :
  authorized self doc ->
  message_of doc = Some m ->
  send_with_mailgun m (dict_get doc "fallback") w = (Raise e1, w1) ->
  send_with_mandrill m w1 = (Raise e2, w2) ->
  on_post self doc w =
    match e2 with
    | KeyError k => (Raise (missing_field k), logged "Missing field from body" w2)
    | _ => (Raise e2, logged "Unexpected exception." w2)
    end.
Proof.
  intros Hkey Hm H1 H2. rewrite (on_post_dispatch _ _ _ _ Hkey Hm).
  rewrite (send_primary_raise _ _ _ _ _ H1), H2. now destruct e2.
Qed.

(** A body without one of the required fields: the first lookup that fails
    raises [KeyError], which the handler turns into a bad request. *)
Lemma on_post_missing self doc k w :
  authorized self doc ->
  first_missing doc = Some k ->
  on_post self doc w =
    (Raise (missing_field k), logged "Missing field from body" w).
Proof.
  intros Hkey Hk. unfold authorized in Hkey.
  unfold first_missing, required_fields in Hk. simpl in Hk.
  unfold on_post. rewrite Hkey. cbn [negb].
  unfold bind, try_except, getitem.
  destruct (doc !! "sender"); [|now injection Hk as <-].
  destruct (doc !! "receiver"); [|now injection Hk as <-].
  destruct (doc !! "subject"); [|now injection Hk as <-].
  destruct (doc !! "text"); [|now injection Hk as <-].
  destruct (doc !! "html"); [discriminate|now injection Hk as <-].
Qed.

Lemma first_missing_required doc k :
  first_missing doc = Some k -> In k required_fields.
Proof. intros H. now apply find_some in H. Qed.

Lemma message_of_none doc :
  message_of doc = None -> exists k, first_missing doc = Some k.
Proof.
  unfold message_of, first_missing, required_fields. simpl.
  destruct (doc !! "sender"); [|eauto].
  destruct (doc !! "receiver"); [|eauto].
  destruct (doc !! "subject"); [|eauto].
  destruct (doc !! "text"); [|eauto].
  destruct (doc !! "html"); [discriminate|eauto].
Qed.

(** Once the key is accepted the answer is never 404. *)
Lemma authorized_not_404 self doc w :
  authorized self doc -> http_status (fst (on_post self doc w)) <> 404.
Proof.
  intros Hkey. destruct (message_of doc) as [m|] eqn:Hm.
  - rewrite (on_post_dispatch _ _ _ _ Hkey Hm).
    destruct (send _ _ w) as [[[]|e] w'] eqn:Hsend; [discriminate|].
    apply send_error in Hsend. destruct e; try discriminate; contradiction.
  - apply message_of_none in Hm as [k Hk].
    rewrite (on_post_missing _ _ _ _ Hkey Hk). discriminate.
Qed.

(** The handler reads the resource and the [key] field in the comparison of
    line 128 only. *)
Lemma on_post_key_only self self' doc doc' w :
  authorized self doc ->
  authorized self' doc' ->
  (forall k, k <> "key" -> doc' !! k = doc !! k) ->
  on_post self' doc' w = on_post self doc w.
Proof.
  unfold authorized. intros Hkey Hkey' Hsame.
  unfold on_post. rewrite Hkey, Hkey'. cbn [negb].
  unfold getitem. unfold dict_get at 1 2.
  now rewrite !Hsame by discriminate.
Qed.

(** Without [MANDRILL_API_KEY] in the environment the secondary attempt,
    when its breaker lets it through, raises the [KeyError] of the lookup. *)
Lemma mandrill_key_unset m w :
  environ (outside w) !! "MANDRILL_API_KEY" = None ->
  state (mandrill_breaker w) = Closed ->
  fst (send_with_mandrill m w) = Raise (KeyError "MANDRILL_API_KEY").
Proof.
  intros Henv Hst. rewrite send_with_mandrill_unfold.
  unfold call. simpl. rewrite Hst.
  unfold guarded, mandrill_body, bind, os_environ. simpl. now rewrite Henv.
Qed.

(** ** Runs of requests and of calls *)

Lemma forced_request_after self doc m w k :
  authorized self doc ->
  message_of doc = Some m ->
  truthy (dict_get doc "fallback") = true ->
  after_failures (breaker_of Mailgun) k (mailgun_breaker w) ->
  after_failures (breaker_of Mailgun) (S k)
    (mailgun_breaker (snd (on_post self doc w))).
Proof.
  intros Hkey Hm Hfb Hk.
  destruct (send_with_mailgun_forced m _ w Hfb) as (e & wa & Ha).
  change (mailgun_breaker (on_post self doc w).2)
    with (get_breaker Mailgun (snd (on_post self doc w))).
  rewrite (on_post_breaker _ _ _ _ _ Hkey Hm).
  rewrite (send_primary_raise _ _ _ _ _ Ha).
  rewrite send_with_mandrill_unfold, call_other_breaker by discriminate.
  change (get_breaker Mailgun (entered Mandrill wa))
    with (get_breaker Mailgun wa).
  rewrite send_with_mailgun_unfold in Ha.
  eapply call_failed_after; [exact Ha|exact Hk].
Qed.

Lemma forced_requests_after self n w w' :
  forced_requests self n w w' ->
  forall k, after_failures (breaker_of Mailgun) k (mailgun_breaker w) ->
            after_failures (breaker_of Mailgun) (k + n) (mailgun_breaker w').
Proof.
  induction 1 as [w|n w doc m r w1 w1' w2 Hkey Hm Hfb Hpost Hsame _ IH];
    intros k Hk.
  - now rewrite Nat.add_0_r.
  - replace (k + S n)%nat with (S k + n)%nat by lia.
    apply IH. rewrite Hsame.
    pose proof (forced_request_after _ _ _ w k Hkey Hm Hfb Hk) as H.
    now rewrite Hpost in H.
Qed.

(** A handler that has a secret answers a body without [key], or with
    another key, with [HTTPNotFound] and does nothing else. *)
Lemma configured_secret_rejects self doc w s :
  api_key self = Some s ->
  doc !! "key" = None \/ py_eq (dict_get doc "key") (PStr s) = false ->
  on_post self doc w = (Raise HTTPNotFound, w) /\
  http_status (fst (on_post self doc w)) = 404.
Proof.
  intros Hs Hkey.
  assert (py_eq (dict_get doc "key") (of_opt_str (api_key self)) = false) as H.
  { rewrite Hs. destruct Hkey as [Hnone|Hne]; [|exact Hne].
    unfold dict_get. now rewrite Hnone. }
  now rewrite (on_post_rejected _ _ _ H).
Qed.

Lemma after_calls_succ p fn n w :
  after_calls p fn (S n) w = after_calls p fn n (snd (call p fn w)).
Proof. unfold after_calls. now rewrite Nat.iter_succ_r. Qed.

Lemma after_requests_succ self doc n w :
  after_requests self doc (S n) w =
  after_requests self doc n (snd (on_post self doc w)).
Proof. unfold after_requests. now rewrite Nat.iter_succ_r. Qed.

(** Calls of the forced failure are failed calls, as many as one likes. *)
Lemma forced_calls_fail m r n w :
  truthy r = true ->
  failed_calls Mailgun n w (after_calls Mailgun (mailgun_body m r) n w).
Proof.
  intros Hr. revert w. induction n as [|n IH]; intros w; [constructor|].
  rewrite after_calls_succ.
  destruct (call_cases Mailgun (mailgun_body m r) w)
    as [(_ & _ & Hc)|[(_ & _ & Hc)|(_ & Hc)]].
  - eapply failed_more; [exact Hc|reflexivity|]. rewrite Hc at 1. apply IH.
  - erewrite guarded_raise in Hc by (now apply mailgun_body_forced).
    eapply failed_more; [exact Hc|reflexivity|]. rewrite Hc at 1. apply IH.
  - erewrite guarded_raise in Hc by (now apply mailgun_body_forced).
    eapply failed_more; [exact Hc|reflexivity|]. rewrite Hc at 1. apply IH.
Qed.

(** Requests with a true [fallback] are forced requests, as many as one
    likes. *)
Lemma repeated_forced_requests self doc m n w :
  authorized self doc ->
  message_of doc = Some m ->
  truthy (dict_get doc "fallback") = true ->
  forced_requests self n w (after_requests self doc n w).
Proof.
  intros Hkey Hm Hfb. revert w. induction n as [|n IH]; intros w; [constructor|].
  rewrite after_requests_succ.
  eapply forced_more; [exact Hkey|exact Hm|exact Hfb| |reflexivity|apply IH].
  apply surjective_pairing.
Qed.

(** ** The claims

    Each theorem is followed by its instance on the sample data. *)

(** C1: for a request with the correct key and all five required fields, if
    the call of [send_with_mailgun] raises, or [fallback] is true (which makes
    it raise), then [send_with_mandrill] is invoked exactly once, and if that
    call returns the handler answers 204 No Content. *)
Theorem primary_failure_falls_back self doc m w :
  authorized self doc ->
  message_of doc = Some m ->
  (exists e w1,
     send_with_mailgun m (dict_get doc "fallback") w = (Raise e, w1)) \/
  truthy (dict_get doc "fallback") = true ->
  exists e w1,
    send_with_mailgun m (dict_get doc "fallback") w = (Raise e, w1) /\
    invocations Mandrill (snd (on_post self doc w)) =
      S (invocations Mandrill w) /\
    forall w2,
      send_with_mandrill m w1 = (Ok tt, w2) ->
      on_post self doc w = (Ok 204, w2) /\
      http_status (fst (on_post self doc w)) = 204.
Proof.
  intros Hkey Hm Hfail.
  assert (exists e w1,
            send_with_mailgun m (dict_get doc "fallback") w = (Raise e, w1))
    as (e & w1 & H1).
  { destruct Hfail as [H|H]; [exact H|now apply send_with_mailgun_forced]. }
  exists e, w1. split; [exact H1|]. split.
  - rewrite (on_post_invocations _ _ _ _ _ Hkey Hm).
    rewrite (send_primary_raise _ _ _ _ _ H1).
    destruct (send_with_mandrill_invocations m w1) as [-> _].
    destruct (send_with_mailgun_invocations m (dict_get doc "fallback") w)
      as [_ H]. rewrite H1 in H. simpl in H. now rewrite H.
  - intros w2 H2.
    rewrite (on_post_dispatch _ _ _ _ Hkey Hm).
    rewrite (send_primary_raise _ _ _ _ _ H1), H2. now split.
Qed.

Lemma primary_failure_falls_back_witness :
  let w := start both_configured 0 [Status 200] in
  authorized resource forced_body /\
  message_of forced_body = Some test_message /\
  truthy (dict_get forced_body "fallback") = true /\
  exists e w1,
    send_with_mailgun test_message (dict_get forced_body "fallback") w =
      (Raise e, w1) /\
    invocations Mandrill (snd (on_post resource forced_body w)) =
      S (invocations Mandrill w) /\
    forall w2,
      send_with_mandrill test_message w1 = (Ok tt, w2) ->
      on_post resource forced_body w = (Ok 204, w2) /\
      http_status (fst (on_post resource forced_body w)) = 204.
Proof.
  intros w.
  assert (authorized resource forced_body) as H1 by (vm_compute; reflexivity).
  assert (message_of forced_body = Some test_message) as H2
    by (vm_compute; reflexivity).
  assert (truthy (dict_get forced_body "fallback") = true) as H3
    by (vm_compute; reflexivity).
  repeat (split; [assumption|]).
  exact (primary_failure_falls_back resource forced_body test_message w
           H1 H2 (or_intror H3)).
Defined.

(** C2: for a request with the correct key and all five required fields, if
    the call of [send_with_mailgun] returns, then [send_with_mandrill] is not
    invoked and the handler answers 204 No Content. *)
Theorem primary_success_is_enough self doc m w w1 :
  authorized self doc ->
  message_of doc = Some m ->
  send_with_mailgun m (dict_get doc "fallback") w = (Ok tt, w1) ->
  on_post self doc w = (Ok 204, w1) /\
  http_status (fst (on_post self doc w)) = 204 /\
  invocations Mandrill (snd (on_post self doc w)) = invocations Mandrill w.
Proof.
  intros Hkey Hm H1.
  assert (on_post self doc w = (Ok 204, w1)) as Hpost.
  { rewrite (on_post_dispatch _ _ _ _ Hkey Hm).
    now rewrite (send_primary_ok _ _ _ _ H1). }
  rewrite Hpost. repeat split.
  destruct (send_with_mailgun_invocations m (dict_get doc "fallback") w)
    as [_ H]. rewrite H1 in H. exact H.
Qed.

Lemma primary_success_is_enough_witness :
  let w := start both_configured 0 [Status 200] in
  let w1 := snd (send_with_mailgun test_message PNone w) in
  authorized resource keyed_body /\
  message_of keyed_body = Some test_message /\
  send_with_mailgun test_message (dict_get keyed_body "fallback") w =
    (Ok tt, w1) /\
  on_post resource keyed_body w = (Ok 204, w1) /\
  http_status (fst (on_post resource keyed_body w)) = 204 /\
  invocations Mandrill (snd (on_post resource keyed_body w)) =
    invocations Mandrill w.
Proof.
  intros w w1.
  assert (authorized resource keyed_body) as H1 by (vm_compute; reflexivity).
  assert (message_of keyed_body = Some test_message) as H2
    by (vm_compute; reflexivity).
  assert (send_with_mailgun test_message (dict_get keyed_body "fallback") w =
            (Ok tt, w1)) as H3 by (vm_compute; reflexivity).
  repeat (split; [assumption|]).
  exact (primary_success_is_enough resource keyed_body test_message w w1
           H1 H2 H3).
Defined.

(** C3: for each provider breaker, after 5 consecutive failed calls the
    breaker is open, each failure of the wrapped function being counted and
    its time kept; while it is open and fewer than 60 time units have
    passed since the last failure, every call fails at once with a
    circuit-open error and the wrapped function is not invoked (the world is
    left as it was); once 60 time units have passed, the next call runs the
    wrapped function once as a trial: its success closes the breaker with the
    failure count reset, its failure opens the breaker again, the timeout
    counting from that failure. *)
Theorem breaker_contract p :
  (forall w w', failed_calls p 5 w w' -> state (get_breaker p w') = Open) /\
  (forall (A : Type) (fn : ST ext A) w e w1,
     call p fn w = (Raise e, w1) ->
     state (get_breaker p w) <> Open ->
     fail_counter (get_breaker p w1) = S (fail_counter (get_breaker p w)) /\
     last_failure (get_breaker p w1) = clock (outside w1)) /\
  (forall (A : Type) (fn : ST ext A) w,
     state (get_breaker p w) = Open ->
     clock (outside w) < last_failure (get_breaker p w) + 60 ->
     call p fn w =
       (Raise (CircuitBreakerError
                 "Timeout not elapsed yet, circuit breaker still open"), w)) /\
  (forall (A : Type) (fn : ST ext A) w,
     state (get_breaker p w) = Open ->
     last_failure (get_breaker p w) + 60 <= clock (outside w) ->
     let b := get_breaker p w in
     let name := breaker_name (breaker_of p) in
     match fn (emit (before_call name) (outside w)) with
     | (Ok a, x) =>
         call p fn w =
           (Ok a,
            set_breaker p
              {| fail_counter := 0; state := Closed;
                 last_failure := last_failure b |}
              (emit (success name) x) w)
     | (Raise e, x) =>
         call p fn w =
           (Raise e,
            set_breaker p
              {| fail_counter := S (fail_counter b); state := Open;
                 last_failure := clock x |}
              (emit (failure name) x) w)
     end).
Proof.
  split; [|split; [|split]].
  - intros w w' H. apply (after_failures_open p).
    apply (failed_calls_after _ _ _ _ H 0%nat). now left.
  - intros A fn w e w1 Hcall Hst.
    destruct (call_cases p fn w) as [(Ho & _)|[(Ho & _)|(_ & Hc)]];
      [contradiction|contradiction|].
    rewrite Hc in Hcall. apply guarded_raised in Hcall as (x & _ & ->).
    now rewrite get_set_breaker, outside_set_breaker.
  - intros A fn w. apply call_rejected.
  - intros A fn w Hopen Hnow b name.
    destruct (call_cases p fn w) as [(_ & Hlt & _)|[(_ & _ & Hc)|(Hn & _)]];
      [lia| |contradiction].
    rewrite Hc. unfold guarded.
    rewrite get_set_breaker, outside_set_breaker. fold name.
    destruct (fn _) as [[a|e] x]; now destruct p.
Qed.

Lemma breaker_contract_witness :
  let fn := mailgun_body test_message (PBool true) in
  let cold := start both_configured 0 [Status 200] in
  let tripped := after_calls Mailgun fn 5 cold in
  let cooled := later 60 [Status 200] tripped in
  let retry := mailgun_body test_message PNone in
  (failed_calls Mailgun 5 cold tripped /\
   state (get_breaker Mailgun tripped) = Open) /\
  (call Mailgun fn cold =
     (Raise (RuntimeError "Forcing mailgun to fail to test fallback."),
      after_calls Mailgun fn 1 cold) /\
   state (get_breaker Mailgun cold) <> Open /\
   fail_counter (get_breaker Mailgun (after_calls Mailgun fn 1 cold)) =
     S (fail_counter (get_breaker Mailgun cold)) /\
   last_failure (get_breaker Mailgun (after_calls Mailgun fn 1 cold)) =
     clock (outside (after_calls Mailgun fn 1 cold))) /\
  (state (get_breaker Mailgun tripped) = Open /\
   clock (outside tripped) < last_failure (get_breaker Mailgun tripped) + 60 /\
   call Mailgun retry tripped =
     (Raise (CircuitBreakerError
               "Timeout not elapsed yet, circuit breaker still open"),
      tripped)) /\
  (state (get_breaker Mailgun cooled) = Open /\
   last_failure (get_breaker Mailgun cooled) + 60 <= clock (outside cooled) /\
   fst (call Mailgun retry cooled) = Ok tt /\
   get_breaker Mailgun (snd (call Mailgun retry cooled)) = new_breaker).
Proof.
  intros fn cold tripped cooled retry.
  destruct (breaker_contract Mailgun) as (Htrip & Hcount & Hreject & Htrial).
  assert (call Mailgun fn cold =
            (Raise (RuntimeError "Forcing mailgun to fail to test fallback."),
             after_calls Mailgun fn 1 cold)) as Hc by (vm_compute; reflexivity).
  assert (state (get_breaker Mailgun cold) <> Open) as Hn by discriminate.
  assert (failed_calls Mailgun 5 cold tripped) as H0
    by (now apply forced_calls_fail).
  assert (state (get_breaker Mailgun tripped) = Open) as H1
    by (vm_compute; reflexivity).
  assert (clock (outside tripped) <
            last_failure (get_breaker Mailgun tripped) + 60) as H2
    by (vm_compute; reflexivity).
  assert (state (get_breaker Mailgun cooled) = Open) as H3
    by (vm_compute; reflexivity).
  assert (last_failure (get_breaker Mailgun cooled) + 60 <=
            clock (outside cooled)) as H4 by (vm_compute; discriminate).
  split; [split; [exact H0|exact (Htrip cold tripped H0)]|].
  split; [split; [exact Hc|]; split; [exact Hn|];
          exact (Hcount unit fn cold _ _ Hc Hn)|].
  split; [repeat (split; [assumption|]); exact (Hreject unit retry tripped H1 H2)|].
  repeat (split; [assumption|]).
  specialize (Htrial unit retry cooled H3 H4). cbv zeta in Htrial.
  destruct (retry _) as [[[]|e] x] eqn:Hretry.
  - rewrite Htrial. split; [reflexivity|]. vm_compute. reflexivity.
  - vm_compute in Hretry. discriminate.
Defined.

(** C4, where the code fails it: with Mailgun unreachable and the Mandrill
    key missing from the environment both providers are invoked once and both
    raise, yet the request is answered with 400 Bad Request naming
    [MANDRILL_API_KEY] as a field missing from the body, not with 500. *)
Theorem both_fail_answered_as_bad_request :
  let w := start mailgun_configured 0 [] in
  authorized resource keyed_body /\
  message_of keyed_body = Some test_message /\
  (exists w1 w2,
     send_with_mailgun test_message (dict_get keyed_body "fallback") w =
       (Raise ConnectionError, w1) /\
     send_with_mandrill test_message w1 =
       (Raise (KeyError "MANDRILL_API_KEY"), w2)) /\
  invocations Mailgun (snd (on_post resource keyed_body w)) = 1%nat /\
  invocations Mandrill (snd (on_post resource keyed_body w)) = 1%nat /\
  fst (on_post resource keyed_body w) =
    Raise (HTTPBadRequest "Missing field"
             "'MANDRILL_API_KEY' is missing from the body.") /\
  http_status (fst (on_post resource keyed_body w)) = 400.
Proof.
  intros w. split; [vm_compute; reflexivity|]. split; [vm_compute; reflexivity|].
  split.
  - eexists _, _. split; vm_compute; reflexivity.
  - repeat split; vm_compute; reflexivity.
Qed.

(** C5, where the code fails it: the handler of the application is built
    without a key; when [API_KEY] is unset its secret is [None], and a body
    without [key] is not answered with 404: the message goes out to the
    provider and the answer is 204. *)
Theorem keyless_request_is_served :
  let self := EmailsResource_init None both_configured in
  let w := start both_configured 0 [Status 200] in
  api_key self = None /\
  request_body !! "key" = None /\
  fst (on_post self request_body w) = Ok 204 /\
  http_status (fst (on_post self request_body w)) = 204 /\
  existsb reaches_out (trace (outside (snd (on_post self request_body w)))) = true.
Proof. intros self w. repeat split; vm_compute; reflexivity. Qed.

(** C6: for a request with the correct key that lacks at least one of
    sender, receiver, subject, text, html, the handler answers 400 Bad
    Request, and the answer names the first missing field in that order.  No
    provider is invoked. *)
Theorem missing_field_is_bad_request self doc k w :
  authorized self doc ->
  first_missing doc = Some k ->
  on_post self doc w =
    (Raise (HTTPBadRequest "Missing field"
              ("'" +:+ k +:+ "' is missing from the body.")),
     logged "Missing field from body" w) /\
  http_status (fst (on_post self doc w)) = 400 /\
  (forall p, invocations p (snd (on_post self doc w)) = invocations p w).
Proof.
  intros Hkey Hk. rewrite (on_post_missing _ _ _ _ Hkey Hk).
  apply first_missing_required in Hk. unfold required_fields in Hk.
  repeat (destruct Hk as [<-|Hk]; [now repeat split|]). contradiction.
Qed.

Lemma missing_field_is_bad_request_witness :
  let doc := delete "subject" (delete "text" keyed_body) in
  let w := start both_configured 0 [] in
  authorized resource doc /\
  first_missing doc = Some "subject" /\
  on_post resource doc w =
    (Raise (HTTPBadRequest "Missing field"
              ("'" +:+ "subject" +:+ "' is missing from the body.")),
     logged "Missing field from body" w) /\
  http_status (fst (on_post resource doc w)) = 400 /\
  (forall p, invocations p (snd (on_post resource doc w)) = invocations p w).
Proof.
  intros doc w.
  assert (authorized resource doc) as H1 by (vm_compute; reflexivity).
  assert (first_missing doc = Some "subject") as H2 by (vm_compute; reflexivity).
  repeat (split; [assumption|]).
  exact (missing_field_is_bad_request resource doc "subject" w H1 H2).
Defined.

(** C7: whenever the primary provider function is called with a true
    [raise_error], the attempt fails with an exception made up on the spot
    before anything leaves the process: no environment variable is read and
    no request is sent to the provider. *)
Theorem forced_failure_stays_local m r :
  truthy r = true ->
  (forall x,
     mailgun_body m r x =
       (Raise (RuntimeError "Forcing mailgun to fail to test fallback."), x)) /\
  (forall w, exists e w1 l,
     send_with_mailgun m r w = (Raise e, w1) /\
     trace (outside w1) = (l ++ trace (outside w))%list /\
     existsb reaches_out l = false /\
     replies (outside w1) = replies (outside w)).
Proof.
  intros Hr. split; [intros x; now apply mailgun_body_forced|].
  intros w. rewrite send_with_mailgun_unfold.
  destruct (call_cases Mailgun (mailgun_body m r) (entered Mailgun w))
    as [(_ & _ & Hc)|[(_ & _ & Hc)|(_ & Hc)]]; rewrite Hc.
  - eexists _, _, [Invoke Mailgun]. now repeat split.
  - erewrite guarded_raise by (now apply mailgun_body_forced).
    eexists _, _, [failure "mailgun"; before_call "mailgun"; Invoke Mailgun].
    now repeat split.
  - erewrite guarded_raise by (now apply mailgun_body_forced).
    eexists _, _, [failure "mailgun"; before_call "mailgun"; Invoke Mailgun].
    now repeat split.
Qed.

Lemma forced_failure_stays_local_witness :
  truthy (PBool true) = true /\
  (forall x,
     mailgun_body test_message (PBool true) x =
       (Raise (RuntimeError "Forcing mailgun to fail to test fallback."), x)) /\
  (forall w, exists e w1 l,
     send_with_mailgun test_message (PBool true) w = (Raise e, w1) /\
     trace (outside w1) = (l ++ trace (outside w))%list /\
     existsb reaches_out l = false /\
     replies (outside w1) = replies (outside w)).
Proof.
  split; [reflexivity|].
  exact (forced_failure_stays_local test_message (PBool true) eq_refl).
Defined.

(** C8: a handler built without an API key while [API_KEY] is unset has the
    secret [None]; every request whose body has no [key] field then passes
    the comparison of line 128 ([None] equals [None]) instead of being
    answered with 404, and is handled like a request that carries the right
    key of a handler that has one. *)
Theorem unset_secret_admits_keyless env doc w :
  env !! "API_KEY" = None ->
  doc !! "key" = None ->
  api_key (EmailsResource_init None env) = None /\
  authorized (EmailsResource_init None env) doc /\
  http_status (fst (on_post (EmailsResource_init None env) doc w)) <> 404 /\
  (forall s, s <> "" ->
     on_post (EmailsResource_init None env) doc w =
     on_post (EmailsResource_init (Some s) env) (<["key" := PStr s]> doc) w).
Proof.
  intros Henv Hdoc.
  assert (authorized (EmailsResource_init None env) doc) as Hkey.
  { unfold authorized, dict_get. simpl. now rewrite Henv, Hdoc. }
  split; [exact Henv|]. split; [exact Hkey|].
  split; [now apply authorized_not_404|].
  intros s Hs. symmetry. apply on_post_key_only; [exact Hkey| |].
  - unfold authorized, dict_get. rewrite lookup_insert_eq. simpl.
    apply String.eqb_neq in Hs. rewrite Hs. simpl. apply String.eqb_refl.
  - intros k Hk. now apply lookup_insert_ne.
Qed.

Lemma unset_secret_admits_keyless_witness :
  let env := both_configured in
  let w := start both_configured 0 [Status 200] in
  env !! "API_KEY" = None /\
  request_body !! "key" = None /\
  api_key (EmailsResource_init None env) = None /\
  authorized (EmailsResource_init None env) request_body /\
  http_status (fst (on_post (EmailsResource_init None env) request_body w))
    <> 404 /\
  (forall s, s <> "" ->
     on_post (EmailsResource_init None env) request_body w =
     on_post (EmailsResource_init (Some s) env)
       (<["key" := PStr s]> request_body) w).
Proof.
  intros env w.
  assert (env !! "API_KEY" = None) as H1 by (vm_compute; reflexivity).
  assert (request_body !! "key" = None) as H2 by (vm_compute; reflexivity).
  split; [exact H1|]. split; [exact H2|].
  exact (unset_secret_admits_keyless env request_body w H1 H2).
Defined.

(** C9: a forced failure is raised inside the function that the Mailgun
    breaker wraps, so the breaker counts it exactly as it counts a failure of
    the provider; 5 consecutive requests with a true [fallback] open the
    Mailgun breaker, and from then until the timeout has elapsed every
    request, with or without [fallback], skips the primary provider and goes
    to the secondary one. *)
Theorem forced_failures_open_primary self :
  (forall m r w (fn : ST ext unit) e x,
     truthy r = true ->
     fn (emit (before_call "mailgun") (outside (entered Mailgun w)))
       = (Raise e, x) ->
     clock x = clock (outside w) ->
     mailgun_breaker (snd (send_with_mailgun m r w)) =
     mailgun_breaker (snd (call Mailgun fn (entered Mailgun w)))) /\
  (forall m r w,
     truthy r = true ->
     state (mailgun_breaker w) = Closed ->
     fail_counter (mailgun_breaker (snd (send_with_mailgun m r w))) =
       S (fail_counter (mailgun_breaker w))) /\
  (forall w w',
     forced_requests self 5 w w' -> state (mailgun_breaker w') = Open) /\
  (forall doc m w,
     authorized self doc ->
     message_of doc = Some m ->
     state (mailgun_breaker w) = Open ->
     clock (outside w) < last_failure (mailgun_breaker w) + 60 ->
     send_with_mailgun m (dict_get doc "fallback") w =
       (Raise (CircuitBreakerError
                 "Timeout not elapsed yet, circuit breaker still open"),
        entered Mailgun w) /\
     on_post self doc w = handled (send_with_mandrill m (entered Mailgun w))).
Proof.
  split; [|split; [|split]].
  - intros m r w fn e x Hr Hfn Hx. rewrite send_with_mailgun_unfold.
    destruct (call_cases Mailgun fn (entered Mailgun w))
      as [(Ho & Hlt & Hc)|[(Ho & Hge & Hc)|(Hn & Hc)]]; rewrite Hc.
    + now rewrite call_rejected.
    + unfold call. rewrite Ho.
      apply Z.ltb_ge in Hge. rewrite reset_timeout_60, Hge.
      erewrite !guarded_raise;
        [|exact Hfn|now apply mailgun_body_forced]. simpl. now rewrite Hx.
    + unfold call.
      destruct (state (get_breaker Mailgun (entered Mailgun w)));
        [|contradiction|];
        (erewrite !guarded_raise;
         [|exact Hfn|now apply mailgun_body_forced]); simpl; now rewrite Hx.
  - intros m r w Hr Hst. rewrite send_with_mailgun_unfold.
    unfold call. simpl. rewrite Hst.
    erewrite guarded_raise by (now apply mailgun_body_forced). reflexivity.
  - intros w w' H. apply (after_failures_open Mailgun).
    apply (forced_requests_after _ _ _ _ H 0%nat). now left.
  - intros doc m w Hkey Hm Hopen Hnow.
    assert (send_with_mailgun m (dict_get doc "fallback") w =
              (Raise (CircuitBreakerError
                        "Timeout not elapsed yet, circuit breaker still open"),
               entered Mailgun w)) as H1.
    { rewrite send_with_mailgun_unfold. now apply call_rejected. }
    split; [exact H1|].
    rewrite (on_post_dispatch _ _ _ _ Hkey Hm).
    now rewrite (send_primary_raise _ _ _ _ _ H1).
Qed.

Lemma forced_failures_open_primary_witness :
  let w := start mailgun_configured 0 [] in
  let real := mailgun_body test_message PNone in
  let x := snd (real (emit (before_call "mailgun") (outside (entered Mailgun w)))) in
  let tripped := after_requests resource forced_body 5 w in
  (truthy (PBool true) = true /\
   real (emit (before_call "mailgun") (outside (entered Mailgun w))) =
     (Raise ConnectionError, x) /\
   clock x = clock (outside w) /\
   mailgun_breaker (snd (send_with_mailgun test_message (PBool true) w)) =
   mailgun_breaker (snd (call Mailgun real (entered Mailgun w)))) /\
  (state (mailgun_breaker w) = Closed /\
   fail_counter
     (mailgun_breaker (snd (send_with_mailgun test_message (PBool true) w))) =
     S (fail_counter (mailgun_breaker w))) /\
  (forced_requests resource 5 w tripped /\
   state (mailgun_breaker tripped) = Open) /\
  (authorized resource keyed_body /\
   message_of keyed_body = Some test_message /\
   state (mailgun_breaker tripped) = Open /\
   clock (outside tripped) < last_failure (mailgun_breaker tripped) + 60 /\
   send_with_mailgun test_message (dict_get keyed_body "fallback") tripped =
     (Raise (CircuitBreakerError
               "Timeout not elapsed yet, circuit breaker still open"),
      entered Mailgun tripped) /\
   on_post resource keyed_body tripped =
     handled (send_with_mandrill test_message (entered Mailgun tripped))).
Proof.
  intros w real x tripped.
  destruct (forced_failures_open_primary resource)
    as (Hsame & Hcount & Htrip & Hskip).
  assert (real (emit (before_call "mailgun") (outside (entered Mailgun w))) =
            (Raise ConnectionError, x)) as H1 by (vm_compute; reflexivity).
  assert (clock x = clock (outside w)) as H2 by (vm_compute; reflexivity).
  assert (authorized resource forced_body) as H3 by (vm_compute; reflexivity).
  assert (message_of forced_body = Some test_message) as H4
    by (vm_compute; reflexivity).
  assert (truthy (dict_get forced_body "fallback") = true) as H5
    by (vm_compute; reflexivity).
  assert (forced_requests resource 5 w tripped) as H6
    by (now apply (repeated_forced_requests _ _ test_message)).
  assert (authorized resource keyed_body) as H7 by (vm_compute; reflexivity).
  assert (message_of keyed_body = Some test_message) as H8
    by (vm_compute; reflexivity).
  assert (state (mailgun_breaker tripped) = Open) as H9
    by (vm_compute; reflexivity).
  assert (clock (outside tripped) < last_failure (mailgun_breaker tripped) + 60)
    as H10 by (vm_compute; reflexivity).
  split.
  { split; [reflexivity|]. split; [exact H1|]. split; [exact H2|].
    exact (Hsame test_message (PBool true) w real ConnectionError x
             eq_refl H1 H2). }
  split.
  { split; [reflexivity|].
    exact (Hcount test_message (PBool true) w eq_refl eq_refl). }
  split.
  { split; [exact H6|exact (Htrip w tripped H6)]. }
  split; [exact H7|]. split; [exact H8|]. split; [exact H9|].
  split; [exact H10|].
  exact (Hskip keyed_body test_message tripped H7 H8 H9 H10).
Defined.

(** C10: when the primary attempt raised and the secondary attempt raises a
    [KeyError], the handler's [KeyError] branch catches it and answers 400
    Bad Request naming that key as a field missing from the body; any other
    exception of the secondary attempt leaves the handler as it is and is
    answered with 500. *)
Theorem secondary_key_error_is_bad_request self doc m w e1 w1 e2 w2 :
  authorized self doc ->
  message_of doc = Some m ->
  send_with_mailgun m (dict_get doc "fallback") w = (Raise e1, w1) ->
  send_with_mandrill m w1 = (Raise e2, w2) ->
  match e2 with
  | KeyError k =>
      on_post self doc w =
        (Raise (HTTPBadRequest "Missing field"
                  (("'" +:+ k +:+ "'") +:+ " is missing from the body.")),
         logged "Missing field from body" w2) /\
      http_status (fst (on_post self doc w)) = 400
  | _ =>
      on_post self doc w = (Raise e2, logged "Unexpected exception." w2) /\
      http_status (fst (on_post self doc w)) = 500
  end.
Proof.
  intros Hkey Hm H1 H2.
  rewrite (on_post_both_raise _ _ _ _ _ _ _ _ Hkey Hm H1 H2).
  apply send_with_mandrill_error in H2.
  destruct e2; try contradiction; now split.
Qed.

Lemma secondary_key_error_is_bad_request_witness :
  let w := start mailgun_configured 0 [] in
  let w1 := snd (send_with_mailgun test_message PNone w) in
  let w2 := snd (send_with_mandrill test_message w1) in
  authorized resource keyed_body /\
  message_of keyed_body = Some test_message /\
  send_with_mailgun test_message (dict_get keyed_body "fallback") w =
    (Raise ConnectionError, w1) /\
  send_with_mandrill test_message w1 =
    (Raise (KeyError "MANDRILL_API_KEY"), w2) /\
  on_post resource keyed_body w =
    (Raise (HTTPBadRequest "Missing field"
              (("'" +:+ "MANDRILL_API_KEY" +:+ "'") +:+
               " is missing from the body.")),
     logged "Missing field from body" w2) /\
  http_status (fst (on_post resource keyed_body w)) = 400.
Proof.
  intros w w1 w2.
  assert (authorized resource keyed_body) as H1 by (vm_compute; reflexivity).
  assert (message_of keyed_body = Some test_message) as H2
    by (vm_compute; reflexivity).
  assert (send_with_mailgun test_message (dict_get keyed_body "fallback") w =
            (Raise ConnectionError, w1)) as H3 by (vm_compute; reflexivity).
  assert (send_with_mandrill test_message w1 =
            (Raise (KeyError "MANDRILL_API_KEY"), w2)) as H4
    by (vm_compute; reflexivity).
  split; [exact H1|]. split; [exact H2|]. split; [exact H3|].
  split; [exact H4|].
  exact (secondary_key_error_is_bad_request resource keyed_body test_message
           w ConnectionError w1 (KeyError "MANDRILL_API_KEY") w2 H1 H2 H3 H4).
Defined.

(** ** Further properties of the code

    The provider functions on their own, the dispatcher, and the handler as
    a whole. *)

(** Once the flag is false and both settings are found, the Mailgun function
    sends its one request, whatever the reply. *)
Lemma mailgun_body_sent m r x d k :
  truthy r = false ->
  environ x !! "MAILGUN_DOMAIN" = Some d ->
  environ x !! "MAILGUN_API_KEY" = Some k ->
  trace (snd (mailgun_body m r x)) =
    HttpPost (mailgun_url d) "api" k m
      :: EnvRead "MAILGUN_API_KEY" :: EnvRead "MAILGUN_DOMAIN" :: trace x /\
  replies (snd (mailgun_body m r x)) = tail (replies x).
Proof.
  intros Hr Hd Hk.
  unfold mailgun_body, bind, os_environ, next_reply. rewrite Hr, Hd. simpl.
  rewrite Hk. simpl.
  destruct (replies x) as [|[code|] rs] eqn:Hrep; simpl; rewrite ?Hrep;
    [now split| |now split].
  destruct ((400 <=? code) && (code <? 600)); now split.
Qed.

Lemma mailgun_body_ok m r x :
  fst (mailgun_body m r x) = Ok tt ->
  truthy r = false /\
  (exists d, environ x !! "MAILGUN_DOMAIN" = Some d) /\
  (exists k, environ x !! "MAILGUN_API_KEY" = Some k) /\
  exists code, head (replies x) = Some (Status code) /\
               (code < 400 \/ 600 <= code).
Proof.
  unfold mailgun_body, bind, os_environ, next_reply.
  destruct (truthy r); [discriminate|].
  destruct (environ x !! "MAILGUN_DOMAIN") as [d|]; simpl; [|discriminate].
  destruct (environ x !! "MAILGUN_API_KEY") as [k|]; simpl; [|discriminate].
  destruct (replies x) as [|[code|] rs]; simpl; try discriminate.
  destruct (Z.leb_spec 400 code), (Z.ltb_spec code 600); simpl;
    try discriminate; intros _; repeat split; eauto; exists code; split;
    try reflexivity; lia.
Qed.

(** X7: the Mailgun function returns exactly when [raise_error] is false,
    both settings are in the environment, and the network answers with a
    status outside 400..599; it then has posted the message to the URL of the
    configured domain with user [api] and the configured key, and has used up
    one reply. *)
Theorem mailgun_body_returns m r x :
  (fst (mailgun_body m r x) = Ok tt <->
   truthy r = false /\
   (exists d, environ x !! "MAILGUN_DOMAIN" = Some d) /\
   (exists k, environ x !! "MAILGUN_API_KEY" = Some k) /\
   exists code, head (replies x) = Some (Status code) /\
                (code < 400 \/ 600 <= code)) /\
  (forall d k,
     fst (mailgun_body m r x) = Ok tt ->
     environ x !! "MAILGUN_DOMAIN" = Some d ->
     environ x !! "MAILGUN_API_KEY" = Some k ->
     trace (snd (mailgun_body m r x)) =
       HttpPost (mailgun_url d) "api" k m
         :: EnvRead "MAILGUN_API_KEY" :: EnvRead "MAILGUN_DOMAIN" :: trace x /\
     replies (snd (mailgun_body m r x)) = tail (replies x)).
Proof.
  split; [split; [apply mailgun_body_ok|]|].
  - intros (Hr & (d & Hd) & (k & Hk) & code & Hcode & Hrange).
    unfold mailgun_body, bind, os_environ, next_reply. rewrite Hr, Hd. simpl.
    rewrite Hk. simpl.
    destruct (replies x) as [|rep rs]; [discriminate|].
    injection Hcode as ->. simpl.
    destruct (Z.leb_spec 400 code), (Z.ltb_spec code 600); simpl;
      try reflexivity; lia.
  - intros d k Hok Hd Hk.
    apply mailgun_body_ok in Hok as (Hr & _). now apply mailgun_body_sent.
Qed.

Lemma mailgun_body_returns_witness :
  let x := outside (start both_configured 0 [Status 200]) in
  fst (mailgun_body test_message PNone x) = Ok tt /\
  environ x !! "MAILGUN_DOMAIN" = Some "example.org" /\
  environ x !! "MAILGUN_API_KEY" = Some "key-mailgun" /\
  trace (snd (mailgun_body test_message PNone x)) =
    HttpPost (mailgun_url "example.org") "api" "key-mailgun" test_message
      :: EnvRead "MAILGUN_API_KEY" :: EnvRead "MAILGUN_DOMAIN" :: trace x /\
  replies (snd (mailgun_body test_message PNone x)) = tail (replies x).
Proof.
  intros x.
  assert (fst (mailgun_body test_message PNone x) = Ok tt) as H1
    by (vm_compute; reflexivity).
  assert (environ x !! "MAILGUN_DOMAIN" = Some "example.org") as H2
    by (vm_compute; reflexivity).
  assert (environ x !! "MAILGUN_API_KEY" = Some "key-mailgun") as H3
    by (vm_compute; reflexivity).
  split; [exact H1|]. split; [exact H2|]. split; [exact H3|].
  exact (proj2 (mailgun_body_returns test_message PNone x) _ _ H1 H2 H3).
Defined.

Lemma mandrill_body_sent m x k :
  environ x !! "MANDRILL_API_KEY" = Some k ->
  trace (snd (mandrill_body m x)) =
    MandrillSend k m :: EnvRead "MANDRILL_API_KEY" :: trace x /\
  replies (snd (mandrill_body m x)) = tail (replies x).
Proof.
  intros Hk. unfold mandrill_body, bind, os_environ, next_reply.
  rewrite Hk. simpl.
  destruct (replies x) as [|[code|] rs] eqn:Hrep; simpl; rewrite ?Hrep;
    [now split| |now split].
  destruct (code =? 200); now split.
Qed.

Lemma mandrill_body_ok m x :
  fst (mandrill_body m x) = Ok tt ->
  (exists k, environ x !! "MANDRILL_API_KEY" = Some k) /\
  head (replies x) = Some (Status 200).
Proof.
  unfold mandrill_body, bind, os_environ, next_reply.
  destruct (environ x !! "MANDRILL_API_KEY") as [k|]; simpl; [|discriminate].
  destruct (replies x) as [|[code|] rs]; simpl; try discriminate.
  destruct (Z.eqb_spec code 200) as [->|]; [eauto|discriminate].
Qed.

(** X8: the Mandrill function returns exactly when its key is in the
    environment and the network answers 200; without the key it raises the
    [KeyError] of the lookup and sends nothing; with the key it sends the
    message under that key once, whatever the reply. *)
Theorem mandrill_body_returns m x :
  (fst (mandrill_body m x) = Ok tt <->
   (exists k, environ x !! "MANDRILL_API_KEY" = Some k) /\
   head (replies x) = Some (Status 200)) /\
  (environ x !! "MANDRILL_API_KEY" = None ->
   mandrill_body m x =
     (Raise (KeyError "MANDRILL_API_KEY"), emit (EnvRead "MANDRILL_API_KEY") x)) /\
  (forall k,
     environ x !! "MANDRILL_API_KEY" = Some k ->
     trace (snd (mandrill_body m x)) =
       MandrillSend k m :: EnvRead "MANDRILL_API_KEY" :: trace x /\
     replies (snd (mandrill_body m x)) = tail (replies x)).
Proof.
  split; [split; [apply mandrill_body_ok|]|split].
  - intros ((k & Hk) & Hrep).
    unfold mandrill_body, bind, os_environ, next_reply. rewrite Hk. simpl.
    destruct (replies x) as [|rep rs]; [discriminate|].
    now injection Hrep as ->.
  - intros Hk. unfold mandrill_body, bind, os_environ. now rewrite Hk.
  - intros k. apply mandrill_body_sent.
Qed.

Lemma mandrill_body_returns_witness :
  let x := outside (start both_configured 0 [Status 200]) in
  let y := outside (start mailgun_configured 0 [Status 200]) in
  environ y !! "MANDRILL_API_KEY" = None /\
  mandrill_body test_message y =
    (Raise (KeyError "MANDRILL_API_KEY"), emit (EnvRead "MANDRILL_API_KEY") y) /\
  environ x !! "MANDRILL_API_KEY" = Some "key-mandrill" /\
  trace (snd (mandrill_body test_message x)) =
    MandrillSend "key-mandrill" test_message
      :: EnvRead "MANDRILL_API_KEY" :: trace x /\
  replies (snd (mandrill_body test_message x)) = tail (replies x).
Proof.
  intros x y.
  assert (environ y !! "MANDRILL_API_KEY" = None) as H1
    by (vm_compute; reflexivity).
  assert (environ x !! "MANDRILL_API_KEY" = Some "key-mandrill") as H2
    by (vm_compute; reflexivity).
  split; [exact H1|].
  split; [exact (proj1 (proj2 (mandrill_body_returns test_message y)) H1)|].
  split; [exact H2|].
  exact (proj2 (proj2 (mandrill_body_returns test_message x)) _ H2).
Defined.

(** X1: [send] invokes Mailgun exactly once; it invokes Mandrill once, on the
    world the failed Mailgun call left, when that call raised, and not at all
    when it returned; the exception of the Mailgun call is dropped, and what
    [send] returns or raises after a fallback is what the Mandrill call
    returned or raised. *)
Theorem send_accounting m fb w :
  invocations Mailgun (snd (send m fb w)) = S (invocations Mailgun w) /\
  match send_with_mailgun m fb w with
  | (Ok _, w1) =>
      send m fb w = (Ok tt, w1) /\
      invocations Mandrill (snd (send m fb w)) = invocations Mandrill w
  | (Raise _, w1) =>
      send m fb w = send_with_mandrill m w1 /\
      invocations Mandrill (snd (send m fb w)) = S (invocations Mandrill w)
  end.
Proof.
  destruct (send_with_mailgun_invocations m fb w) as [Hgun Hdrill].
  destruct (send_with_mailgun m fb w) as [[[]|e] w1] eqn:H1; simpl in *.
  - rewrite (send_primary_ok _ _ _ _ H1). simpl. now repeat split.
  - rewrite (send_primary_raise _ _ _ _ _ H1).
    destruct (send_with_mandrill_invocations m w1) as [-> ->].
    now rewrite Hgun, Hdrill.
Qed.

(** X2: the status of every answer is given by a table: 404 when the key
    does not compare equal to the secret; otherwise 400 when a required field
    is missing; otherwise 204 when [send] returns, 400 when it raises a
    [KeyError], and 500 when it raises anything else.  No other status is
    ever sent. *)
Theorem on_post_status_table self doc w :
  http_status (fst (on_post self doc w)) = answer self doc w /\
  In (http_status (fst (on_post self doc w))) [204; 400; 404; 500].
Proof.
  assert (http_status (fst (on_post self doc w)) = answer self doc w) as Htable.
  { unfold answer.
    destruct (py_eq (dict_get doc "key") (of_opt_str (api_key self))) eqn:Hkey;
      simpl.
    - destruct (message_of doc) as [m|] eqn:Hm.
      + rewrite (on_post_dispatch _ _ _ _ Hkey Hm).
        destruct (send _ _ w) as [[[]|e] w'] eqn:Hsend; [reflexivity|].
        apply send_error in Hsend. now destruct e.
      + apply message_of_none in Hm as [k Hk].
        now rewrite (on_post_missing _ _ _ _ Hkey Hk).
    - now rewrite (on_post_rejected _ _ _ Hkey). }
  split; [exact Htable|]. rewrite Htable. clear Htable. unfold answer. simpl.
  destruct (negb _); [|destruct (message_of doc);
                         [destruct (fst (send _ _ _)) as [[]|[]]|]];
    repeat (first [left; reflexivity|right]).
Qed.

Lemma py_eq_str v s : py_eq v (PStr s) = true <-> v = PStr s.
Proof.
  destruct v; simpl; try (split; [discriminate|congruence]).
  rewrite String.eqb_eq. split; congruence.
Qed.

(** X3: a handler whose secret is a string accepts a body exactly when its
    [key] field is that very string; any other body, whatever else it holds,
    is answered with [HTTPNotFound] and nothing else happens: nothing is
    logged, no provider is invoked, no breaker changes. *)
Theorem string_secret_is_exact self doc s :
  api_key self = Some s ->
  (authorized self doc <-> doc !! "key" = Some (PStr s)) /\
  (forall w, doc !! "key" <> Some (PStr s) ->
             on_post self doc w = (Raise HTTPNotFound, w)).
Proof.
  intros Hs.
  assert (authorized self doc <-> doc !! "key" = Some (PStr s)) as Hiff.
  { unfold authorized. rewrite Hs. simpl. rewrite py_eq_str. unfold dict_get.
    destruct (doc !! "key"); simpl; split; congruence. }
  split; [exact Hiff|].
  intros w Hne. apply on_post_rejected.
  destruct (py_eq _ _) eqn:Hkey; [|reflexivity].
  now apply Hiff in Hkey.
Qed.

Lemma string_secret_is_exact_witness :
  let doc := <["key" := PStr "xyz"]> request_body in
  let w := start both_configured 0 [Status 200] in
  api_key resource = Some "abc" /\
  (authorized resource doc <-> doc !! "key" = Some (PStr "abc")) /\
  doc !! "key" <> Some (PStr "abc") /\
  on_post resource doc w = (Raise HTTPNotFound, w).
Proof.
  intros doc w.
  assert (api_key resource = Some "abc") as H1 by reflexivity.
  assert (doc !! "key" <> Some (PStr "abc")) as H2 by (vm_compute; discriminate).
  split; [exact H1|].
  split; [exact (proj1 (string_secret_is_exact resource doc "abc" H1))|].
  split; [exact H2|].
  exact (proj2 (string_secret_is_exact resource doc "abc" H1) w H2).
Defined.




Lemma guarded_returned {A} p (fn : ST ext A) w a w1 :
  guarded p fn w = (Ok a, w1) ->
  exists x,
    fn (emit (before_call (breaker_name (breaker_of p))) (outside w)) = (Ok a, x) /\
    w1 = set_breaker p (on_success (get_breaker p w))
           (emit (success (breaker_name (breaker_of p))) x) w.
Proof.
  unfold guarded.
  destruct (fn _) as [[a'|e'] x]; intros [= <- <-]; eauto.
Qed.

(** A call that returned went through to the wrapped function, on the world
    as it was plus the line of the attempt. *)
Lemma call_returned {A} p (fn : ST ext A) w a w1 :
  call p fn w = (Ok a, w1) ->
  exists x,
    fn (emit (before_call (breaker_name (breaker_of p))) (outside w)) = (Ok a, x) /\
    get_breaker p w1 = on_success (get_breaker p w) /\
    outside w1 = emit (success (breaker_name (breaker_of p))) x /\
    (forall q, p <> q -> get_breaker q w1 = get_breaker q w).
Proof.
  intros Hcall.
  destruct (call_cases p fn w) as [(_ & _ & Hc)|[(_ & _ & Hc)|(_ & Hc)]];
    rewrite Hc in Hcall; [discriminate| |];
    apply guarded_returned in Hcall as (x & Hx & ->);
    rewrite ?get_set_breaker, ?outside_set_breaker in *;
    exists x; (split; [exact Hx|]);
    rewrite ?get_set_breaker, ?outside_set_breaker;
    (split; [reflexivity|]); (split; [reflexivity|]);
    intros q Hq; now rewrite !get_set_breaker_other.
Qed.

Lemma mailgun_body_environ m r : keeps_environ (mailgun_body m r).
Proof. intros x. run_body; reflexivity. Qed.

Lemma mandrill_body_environ m : keeps_environ (mandrill_body m).
Proof. intros x. run_body; reflexivity. Qed.

Lemma call_environ {A} p (fn : ST ext A) w :
  keeps_environ fn ->
  environ (outside (snd (call p fn w))) = environ (outside w).
Proof.
  intros Hfn.
  assert (forall w0, environ (outside (snd (guarded p fn w0))) =
                     environ (outside w0)) as Hg.
  { intros w0. unfold guarded.
    pose proof (Hfn (emit (before_call (breaker_name (breaker_of p)))
                       (outside w0))) as H.
    destruct (fn _) as [[a|e] x]; simpl in *;
      now rewrite outside_set_breaker. }
  destruct (call_cases p fn w) as [(_ & _ & Hc)|[(_ & _ & Hc)|(_ & Hc)]];
    rewrite Hc; [reflexivity| |apply Hg].
  rewrite Hg. now rewrite outside_set_breaker.
Qed.

Lemma send_with_mailgun_environ m r w :
  environ (outside (snd (send_with_mailgun m r w))) = environ (outside w).
Proof.
  rewrite send_with_mailgun_unfold, call_environ by apply mailgun_body_environ.
  reflexivity.
Qed.

(** What a returning Mailgun call has done. *)
Lemma send_with_mailgun_returned m r w w1 :
  send_with_mailgun m r w = (Ok tt, w1) ->
  exists d k,
    truthy r = false /\
    environ (outside w) !! "MAILGUN_DOMAIN" = Some d /\
    environ (outside w) !! "MAILGUN_API_KEY" = Some k /\
    trace (outside w1) =
      ([success "mailgun"; HttpPost (mailgun_url d) "api" k m;
       EnvRead "MAILGUN_API_KEY"; EnvRead "MAILGUN_DOMAIN";
       before_call "mailgun"; Invoke Mailgun] ++ trace (outside w))%list /\
    mandrill_breaker w1 = mandrill_breaker w /\
    mailgun_breaker w1 = on_success (mailgun_breaker w).
Proof.
  rewrite send_with_mailgun_unfold. intros Hcall.
  apply call_returned in Hcall as (x & Hx & Hb & Hout & Hother).
  set (x0 := emit _ (outside (entered Mailgun w))) in Hx.
  pose proof (f_equal fst Hx) as Hok. simpl in Hok.
  apply mailgun_body_ok in Hok as (Hr & (d & Hd) & (k & Hk) & _).
  destruct (mailgun_body_sent m r x0 d k Hr Hd Hk) as [Htr _].
  rewrite Hx in Htr. simpl in Htr.
  exists d, k. repeat split; try assumption.
  - rewrite Hout. simpl. now rewrite Htr.
  - exact (Hother Mandrill ltac:(discriminate)).
Qed.

(** What a returning Mandrill call has done. *)
Lemma send_with_mandrill_returned m w w2 :
  send_with_mandrill m w = (Ok tt, w2) ->
  exists k,
    environ (outside w) !! "MANDRILL_API_KEY" = Some k /\
    trace (outside w2) =
      ([success "mandrill"; MandrillSend k m; EnvRead "MANDRILL_API_KEY";
       before_call "mandrill"; Invoke Mandrill] ++ trace (outside w))%list /\
    mailgun_breaker w2 = mailgun_breaker w /\
    mandrill_breaker w2 = on_success (mandrill_breaker w).
Proof.
  rewrite send_with_mandrill_unfold. intros Hcall.
  apply call_returned in Hcall as (x & Hx & Hb & Hout & Hother).
  set (x0 := emit _ (outside (entered Mandrill w))) in Hx.
  pose proof (f_equal fst Hx) as Hok. simpl in Hok.
  apply mandrill_body_ok in Hok as ((k & Hk) & _).
  destruct (mandrill_body_sent m x0 k Hk) as [Htr _].
  rewrite Hx in Htr. simpl in Htr.
  exists k. repeat split; try assumption.
  - rewrite Hout. simpl. now rewrite Htr.
  - exact (Hother Mailgun ltac:(discriminate)).
Qed.

(** A handler that returns has passed the key and found the five fields. *)
Lemma on_post_returned self doc w s w' :
  on_post self doc w = (Ok s, w') ->
  s = 204 /\ authorized self doc /\
  exists m, message_of doc = Some m /\
            send m (dict_get doc "fallback") w = (Ok tt, w').
Proof.
  intros Hpost.
  destruct (py_eq (dict_get doc "key") (of_opt_str (api_key self))) eqn:Hkey.
  - destruct (message_of doc) as [m|] eqn:Hm.
    + rewrite (on_post_dispatch _ _ _ _ Hkey Hm) in Hpost.
      destruct (send _ _ w) as [[[]|e] w1] eqn:Hsend; simpl in Hpost.
      * injection Hpost as <- <-. split; [reflexivity|]. split; [exact Hkey|].
        now exists m.
      * now destruct e.
    + apply message_of_none in Hm as [k Hk].
      now rewrite (on_post_missing _ _ _ _ Hkey Hk) in Hpost.
  - now rewrite (on_post_rejected _ _ _ Hkey) in Hpost.
Qed.

(** X5: an answer 204 means that the message of the body has been handed to
    a provider, as the last thing the request did: either Mailgun took it, in
    a post to the URL of the configured domain under the configured key, and
    nothing else was sent; or the Mailgun call raised and Mandrill took it
    under its configured key. *)
Theorem no_content_means_delivered self doc w s w' :
  on_post self doc w = (Ok s, w') ->
  s = 204 /\
  exists m,
    message_of doc = Some m /\
    ((exists d k,
        environ (outside w) !! "MAILGUN_DOMAIN" = Some d /\
        environ (outside w) !! "MAILGUN_API_KEY" = Some k /\
        trace (outside w') =
          ([success "mailgun"; HttpPost (mailgun_url d) "api" k m;
           EnvRead "MAILGUN_API_KEY"; EnvRead "MAILGUN_DOMAIN";
           before_call "mailgun"; Invoke Mailgun] ++ trace (outside w))%list) \/
     (exists e1 w1 k,
        send_with_mailgun m (dict_get doc "fallback") w = (Raise e1, w1) /\
        environ (outside w) !! "MANDRILL_API_KEY" = Some k /\
        trace (outside w') =
          ([success "mandrill"; MandrillSend k m; EnvRead "MANDRILL_API_KEY";
           before_call "mandrill"; Invoke Mandrill] ++ trace (outside w1))%list)).
Proof.
  intros Hpost.
  apply on_post_returned in Hpost as (-> & _ & m & Hm & Hsend).
  split; [reflexivity|]. exists m. split; [exact Hm|].
  destruct (send_with_mailgun m (dict_get doc "fallback") w)
    as [[[]|e1] w1] eqn:H1.
  - rewrite (send_primary_ok _ _ _ _ H1) in Hsend. injection Hsend as <-.
    apply send_with_mailgun_returned in H1
      as (d & k & _ & Hd & Hk & Htr & _).
    left. now exists d, k.
  - rewrite (send_primary_raise _ _ _ _ _ H1) in Hsend.
    apply send_with_mandrill_returned in Hsend as (k & Hk & Htr & _).
    right. exists e1, w1, k. split; [reflexivity|]. split; [|exact Htr].
    pose proof (send_with_mailgun_environ m (dict_get doc "fallback") w) as He.
    rewrite H1 in He. simpl in He. now rewrite <- He.
Qed.

Lemma no_content_means_delivered_witness :
  let w := start both_configured 0 [Status 200] in
  let w' := snd (on_post resource forced_body w) in
  on_post resource forced_body w = (Ok 204, w') /\
  204 = 204 /\
  exists m,
    message_of forced_body = Some m /\
    ((exists d k,
        environ (outside w) !! "MAILGUN_DOMAIN" = Some d /\
        environ (outside w) !! "MAILGUN_API_KEY" = Some k /\
        trace (outside w') =
          ([success "mailgun"; HttpPost (mailgun_url d) "api" k m;
           EnvRead "MAILGUN_API_KEY"; EnvRead "MAILGUN_DOMAIN";
           before_call "mailgun"; Invoke Mailgun] ++ trace (outside w))%list) \/
     (exists e1 w1 k,
        send_with_mailgun m (dict_get forced_body "fallback") w =
          (Raise e1, w1) /\
        environ (outside w) !! "MANDRILL_API_KEY" = Some k /\
        trace (outside w') =
          ([success "mandrill"; MandrillSend k m; EnvRead "MANDRILL_API_KEY";
           before_call "mandrill"; Invoke Mandrill] ++ trace (outside w1))%list)).
Proof.
  intros w w'.
  assert (on_post resource forced_body w = (Ok 204, w')) as H
    by (vm_compute; reflexivity).
  split; [exact H|].
  exact (no_content_means_delivered resource forced_body w 204 w' H).
Defined.

Lemma mailgun_body_posts m r : adds_at_most is_post 1 (mailgun_body m r).
Proof. intros x. run_body; lia. Qed.

Lemma mailgun_body_sends m r : adds_at_most is_mandrill_send 0 (mailgun_body m r).
Proof. intros x. run_body; lia. Qed.

Lemma mandrill_body_posts m : adds_at_most is_post 0 (mandrill_body m).
Proof. intros x. run_body; lia. Qed.

Lemma mandrill_body_sends m : adds_at_most is_mandrill_send 1 (mandrill_body m).
Proof. intros x. run_body; lia. Qed.

Section Counting.

Variable f : event -> bool.
Hypothesis f_log : forall lvl t, f (Log lvl t) = false.
Hypothesis f_invoke : forall p, f (Invoke p) = false.

Lemma count_logged t w : count_events f (logged t w) = count_events f w.
Proof. unfold count_events. simpl. now rewrite f_log. Qed.

Lemma count_entered p w : count_events f (entered p w) = count_events f w.
Proof. unfold count_events. simpl. now rewrite f_invoke. Qed.

Lemma guarded_adds {A} p (fn : ST ext A) n w :
  adds_at_most f n fn ->
  (count_events f (snd (guarded p fn w)) <= count_events f w + n)%nat.
Proof.
  intros Hfn. unfold guarded, count_events.
  pose proof (Hfn (emit (before_call (breaker_name (breaker_of p)))
                     (outside w))) as H.
  unfold before_call, success, failure in *.
  destruct (fn _) as [[a|e] x]; simpl in *;
    rewrite outside_set_breaker; simpl; rewrite ?f_log in *; exact H.
Qed.

Lemma call_adds {A} p (fn : ST ext A) n w :
  adds_at_most f n fn ->
  (count_events f (snd (call p fn w)) <= count_events f w + n)%nat.
Proof.
  intros Hfn.
  destruct (call_cases p fn w) as [(_ & _ & Hc)|[(_ & _ & Hc)|(_ & Hc)]];
    rewrite Hc; [simpl; lia| |now apply guarded_adds].
  etransitivity; [now apply guarded_adds|].
  unfold count_events. now rewrite outside_set_breaker.
Qed.

Lemma send_adds m fb n1 n2 w :
  (forall r, adds_at_most f n1 (mailgun_body m r)) ->
  adds_at_most f n2 (mandrill_body m) ->
  (count_events f (snd (send m fb w)) <= count_events f w + n1 + n2)%nat.
Proof.
  intros H1 H2.
  pose proof (call_adds Mailgun _ n1 (entered Mailgun w) (H1 fb)) as Hgun.
  rewrite count_entered, <- send_with_mailgun_unfold in Hgun.
  destruct (send_with_mailgun m fb w) as [[[]|e] w1] eqn:Hcall; simpl in Hgun.
  - rewrite (send_primary_ok _ _ _ _ Hcall). simpl. lia.
  - rewrite (send_primary_raise _ _ _ _ _ Hcall), send_with_mandrill_unfold.
    pose proof (call_adds Mandrill _ n2 (entered Mandrill w1) H2) as Hdrill.
    rewrite count_entered in Hdrill. lia.
Qed.

Lemma on_post_adds self doc n1 n2 w :
  (forall m r, adds_at_most f n1 (mailgun_body m r)) ->
  (forall m, adds_at_most f n2 (mandrill_body m)) ->
  (count_events f (snd (on_post self doc w)) <= count_events f w + n1 + n2)%nat.
Proof.
  intros H1 H2.
  destruct (py_eq (dict_get doc "key") (of_opt_str (api_key self))) eqn:Hkey.
  - destruct (message_of doc) as [m|] eqn:Hm.
    + rewrite (on_post_dispatch _ _ _ _ Hkey Hm).
      pose proof (send_adds m (dict_get doc "fallback") n1 n2 w (H1 m) (H2 m))
        as Hsend.
      destruct (send _ _ w) as [[[]|e] w1]; simpl in *; [exact Hsend|].
      destruct e; simpl; now rewrite count_logged.
    + apply message_of_none in Hm as [k Hk].
      rewrite (on_post_missing _ _ _ _ Hkey Hk). simpl.
      rewrite count_logged. lia.
  - rewrite (on_post_rejected _ _ _ Hkey). simpl. lia.
Qed.

End Counting.

(** X6: one request makes at most one post to Mailgun and at most one send
    through Mandrill: neither provider is tried a second time. *)
Theorem one_attempt_per_provider self doc w :
  (count_events is_post (snd (on_post self doc w)) <=
   S (count_events is_post w))%nat /\
  (count_events is_mandrill_send (snd (on_post self doc w)) <=
   S (count_events is_mandrill_send w))%nat.
Proof.
  split.
  - pose proof (on_post_adds is_post (fun _ _ => eq_refl) (fun _ => eq_refl)
                  self doc 1 0 w mailgun_body_posts mandrill_body_posts).
    lia.
  - pose proof (on_post_adds is_mandrill_send (fun _ _ => eq_refl)
                  (fun _ => eq_refl) self doc 0 1 w
                  mailgun_body_sends mandrill_body_sends).
    lia.
Qed.

(** X9: the two breakers are separate.  The Mandrill call never touches the
    Mailgun breaker, and a request changes the Mandrill breaker only if it
    passed the key, had all five fields and saw its Mailgun call raise. *)
Theorem breakers_are_separate self doc w :
  (forall m w0,
     mailgun_breaker (snd (send_with_mandrill m w0)) = mailgun_breaker w0) /\
  (mandrill_breaker (snd (on_post self doc w)) <> mandrill_breaker w ->
   authorized self doc /\
   exists m e w1,
     message_of doc = Some m /\
     send_with_mailgun m (dict_get doc "fallback") w = (Raise e, w1)).
Proof.
  split.
  - intros m w0. rewrite send_with_mandrill_unfold.
    change (mailgun_breaker (call Mandrill (mandrill_body m)
                               (entered Mandrill w0)).2)
      with (get_breaker Mailgun
              (snd (call Mandrill (mandrill_body m) (entered Mandrill w0)))).
    now rewrite call_other_breaker by discriminate.
  - intros Hne.
    destruct (py_eq (dict_get doc "key") (of_opt_str (api_key self))) eqn:Hkey;
      [|now rewrite (on_post_rejected _ _ _ Hkey) in Hne].
    split; [exact Hkey|].
    destruct (message_of doc) as [m|] eqn:Hm.
    + exists m.
      destruct (send_with_mailgun m (dict_get doc "fallback") w)
        as [[[]|e] w1] eqn:H1; [|now exists e, w1].
      exfalso. apply Hne.
      change (mandrill_breaker (on_post self doc w).2)
        with (get_breaker Mandrill (snd (on_post self doc w))).
      rewrite (on_post_breaker _ _ _ _ _ Hkey Hm),
        (send_primary_ok _ _ _ _ H1). simpl.
      apply send_with_mailgun_returned in H1. now destruct H1 as (? & ? & ? & ? & ? & ? & ? & ?).
    + apply message_of_none in Hm as [k Hk].
      now rewrite (on_post_missing _ _ _ _ Hkey Hk) in Hne.
Qed.

Lemma breakers_are_separate_witness :
  let w := start mailgun_configured 0 [] in
  mandrill_breaker (snd (on_post resource keyed_body w)) <> mandrill_breaker w /\
  authorized resource keyed_body /\
  exists m e w1,
    message_of keyed_body = Some m /\
    send_with_mailgun m (dict_get keyed_body "fallback") w = (Raise e, w1).
Proof.
  intros w.
  assert (mandrill_breaker (snd (on_post resource keyed_body w)) <>
          mandrill_breaker w) as H by (vm_compute; discriminate).
  split; [exact H|].
  exact (proj2 (breakers_are_separate resource keyed_body w) H).
Defined.



(** X11: the handler of the application takes its secret from [API_KEY]
    alone: with [API_KEY] set to [s] it accepts exactly the bodies whose
    [key] is the string [s].  A handler built with a non-empty key ignores
    [API_KEY], and one built with the empty string is the handler of the
    application. *)
Theorem app_secret_from_environment env s doc :
  env !! "API_KEY" = Some s ->
  (authorized (app_resource env) doc <-> doc !! "key" = Some (PStr s)) /\
  (forall k, k <> "" -> api_key (EmailsResource_init (Some k) env) = Some k) /\
  EmailsResource_init (Some "") env = app_resource env.
Proof.
  intros Henv. split; [|split].
  - unfold authorized, app_resource. simpl. rewrite Henv. simpl.
    rewrite py_eq_str. unfold dict_get.
    destruct (doc !! "key"); simpl; split; congruence.
  - intros k Hk. simpl. apply String.eqb_neq in Hk. now rewrite Hk.
  - reflexivity.
Qed.

Lemma app_secret_from_environment_witness :
  let env := <["API_KEY" := "abc"]> both_configured in
  env !! "API_KEY" = Some "abc" /\
  (authorized (app_resource env) keyed_body <->
   keyed_body !! "key" = Some (PStr "abc")) /\
  (forall k, k <> "" -> api_key (EmailsResource_init (Some k) env) = Some k) /\
  EmailsResource_init (Some "") env = app_resource env.
Proof.
  intros env.
  assert (env !! "API_KEY" = Some "abc") as H by (vm_compute; reflexivity).
  split; [exact H|].
  exact (app_secret_from_environment env "abc" keyed_body H).
Defined.

Lemma mailgun_body_served m r x d k code rs :
  truthy r = false ->
  environ x !! "MAILGUN_DOMAIN" = Some d ->
  environ x !! "MAILGUN_API_KEY" = Some k ->
  replies x = Status code :: rs ->
  code < 400 \/ 600 <= code ->
  mailgun_body m r x =
    (Ok tt,
     {| environ := environ x; clock := clock x; replies := rs;
        trace := HttpPost (mailgun_url d) "api" k m
                   :: EnvRead "MAILGUN_API_KEY" :: EnvRead "MAILGUN_DOMAIN"
                   :: trace x |}).
Proof.
  intros Hr Hd Hk Hrep Hcode.
  unfold mailgun_body, bind, os_environ, next_reply. rewrite Hr, Hd. simpl.
  rewrite Hk. simpl. rewrite Hrep. simpl.
  destruct (Z.leb_spec 400 code), (Z.ltb_spec code 600); simpl;
    try reflexivity; lia.
Qed.

Lemma mandrill_body_served m x k rs :
  environ x !! "MANDRILL_API_KEY" = Some k ->
  replies x = Status 200 :: rs ->
  mandrill_body m x =
    (Ok tt,
     {| environ := environ x; clock := clock x; replies := rs;
        trace := MandrillSend k m :: EnvRead "MANDRILL_API_KEY" :: trace x |}).
Proof.
  intros Hk Hrep.
  unfold mandrill_body, bind, os_environ, next_reply. rewrite Hk. simpl.
  now rewrite Hrep.
Qed.

(** X12: when the request has the key and the five fields and no true
    [fallback], the Mailgun breaker is closed, both Mailgun settings are in
    the environment and the network answers with a status outside 400..599,
    the request is answered 204: the message is posted once to Mailgun, one
    reply is used up, the failure count of the Mailgun breaker is reset and
    Mandrill and its breaker are left alone. *)
Theorem mailgun_serves self doc m w d k code rs :
  authorized self doc ->
  message_of doc = Some m ->
  truthy (dict_get doc "fallback") = false ->
  state (mailgun_breaker w) = Closed ->
  environ (outside w) !! "MAILGUN_DOMAIN" = Some d ->
  environ (outside w) !! "MAILGUN_API_KEY" = Some k ->
  replies (outside w) = Status code :: rs ->
  code < 400 \/ 600 <= code ->
  exists w',
    on_post self doc w = (Ok 204, w') /\
    trace (outside w') =
      ([success "mailgun"; HttpPost (mailgun_url d) "api" k m;
        EnvRead "MAILGUN_API_KEY"; EnvRead "MAILGUN_DOMAIN";
        before_call "mailgun"; Invoke Mailgun] ++ trace (outside w))%list /\
    replies (outside w') = rs /\
    mailgun_breaker w' = on_success (mailgun_breaker w) /\
    mandrill_breaker w' = mandrill_breaker w /\
    invocations Mandrill w' = invocations Mandrill w.
Proof.
  intros Hkey Hm Hfb Hst Hd Hk Hrep Hcode.
  rewrite (on_post_dispatch _ _ _ _ Hkey Hm).
  eexists. split.
  - erewrite send_primary_ok; [reflexivity|].
    rewrite send_with_mailgun_unfold. unfold call. simpl. rewrite Hst.
    erewrite guarded_ok; [reflexivity|].
    now apply (mailgun_body_served m _ _ d k code rs).
  - now repeat split.
Qed.

Lemma mailgun_serves_witness :
  let w := start both_configured 0 [Status 200] in
  authorized resource keyed_body /\
  message_of keyed_body = Some test_message /\
  truthy (dict_get keyed_body "fallback") = false /\
  state (mailgun_breaker w) = Closed /\
  environ (outside w) !! "MAILGUN_DOMAIN" = Some "example.org" /\
  environ (outside w) !! "MAILGUN_API_KEY" = Some "key-mailgun" /\
  replies (outside w) = [Status 200] /\
  (200 < 400 \/ 600 <= 200) /\
  exists w',
    on_post resource keyed_body w = (Ok 204, w') /\
    trace (outside w') =
      ([success "mailgun";
        HttpPost (mailgun_url "example.org") "api" "key-mailgun" test_message;
        EnvRead "MAILGUN_API_KEY"; EnvRead "MAILGUN_DOMAIN";
        before_call "mailgun"; Invoke Mailgun] ++ trace (outside w))%list /\
    replies (outside w') = [] /\
    mailgun_breaker w' = on_success (mailgun_breaker w) /\
    mandrill_breaker w' = mandrill_breaker w /\
    invocations Mandrill w' = invocations Mandrill w.
Proof.
  intros w.
  assert (authorized resource keyed_body) as H1 by (vm_compute; reflexivity).
  assert (message_of keyed_body = Some test_message) as H2
    by (vm_compute; reflexivity).
  assert (truthy (dict_get keyed_body "fallback") = false) as H3
    by (vm_compute; reflexivity).
  assert (state (mailgun_breaker w) = Closed) as H4 by reflexivity.
  assert (environ (outside w) !! "MAILGUN_DOMAIN" = Some "example.org") as H5
    by (vm_compute; reflexivity).
  assert (environ (outside w) !! "MAILGUN_API_KEY" = Some "key-mailgun") as H6
    by (vm_compute; reflexivity).
  assert (replies (outside w) = [Status 200]) as H7 by reflexivity.
  assert (200 < 400 \/ 600 <= 200) as H8 by (left; reflexivity).
  split; [exact H1|]. split; [exact H2|]. split; [exact H3|].
  split; [exact H4|]. split; [exact H5|]. split; [exact H6|].
  split; [exact H7|]. split; [exact H8|].
  exact (mailgun_serves resource keyed_body test_message w _ _ 200 []
           H1 H2 H3 H4 H5 H6 H7 H8).
Defined.

(** X13: when the request has the key and the five fields, its Mailgun call
    raised, the Mandrill breaker is closed, the Mandrill key is in the
    environment and the network answers 200, the request is answered 204:
    the message goes to Mandrill once, the failure count of the Mandrill
    breaker is reset, and the Mailgun breaker stays as the failed call left
    it. *)
Theorem mandrill_serves self doc m w e1 w1 k rs :
  authorized self doc ->
  message_of doc = Some m ->
  send_with_mailgun m (dict_get doc "fallback") w = (Raise e1, w1) ->
  state (mandrill_breaker w1) = Closed ->
  environ (outside w1) !! "MANDRILL_API_KEY" = Some k ->
  replies (outside w1) = Status 200 :: rs ->
  exists w',
    on_post self doc w = (Ok 204, w') /\
    trace (outside w') =
      ([success "mandrill"; MandrillSend k m; EnvRead "MANDRILL_API_KEY";
        before_call "mandrill"; Invoke Mandrill] ++ trace (outside w1))%list /\
    replies (outside w') = rs /\
    mandrill_breaker w' = on_success (mandrill_breaker w1) /\
    mailgun_breaker w' = mailgun_breaker w1.
Proof.
  intros Hkey Hm H1 Hst Hk Hrep.
  rewrite (on_post_dispatch _ _ _ _ Hkey Hm).
  rewrite (send_primary_raise _ _ _ _ _ H1).
  eexists. split.
  - rewrite send_with_mandrill_unfold. unfold call. simpl. rewrite Hst.
    erewrite guarded_ok; [reflexivity|].
    now apply (mandrill_body_served m _ k rs).
  - now repeat split.
Qed.

Lemma mandrill_serves_witness :
  let w := start both_configured 0 [Status 200] in
  let w1 := snd (send_with_mailgun test_message (PBool true) w) in
  authorized resource forced_body /\
  message_of forced_body = Some test_message /\
  send_with_mailgun test_message (dict_get forced_body "fallback") w =
    (Raise (RuntimeError "Forcing mailgun to fail to test fallback."), w1) /\
  state (mandrill_breaker w1) = Closed /\
  environ (outside w1) !! "MANDRILL_API_KEY" = Some "key-mandrill" /\
  replies (outside w1) = [Status 200] /\
  exists w',
    on_post resource forced_body w = (Ok 204, w') /\
    trace (outside w') =
      ([success "mandrill"; MandrillSend "key-mandrill" test_message;
        EnvRead "MANDRILL_API_KEY"; before_call "mandrill"; Invoke Mandrill]
         ++ trace (outside w1))%list /\
    replies (outside w') = [] /\
    mandrill_breaker w' = on_success (mandrill_breaker w1) /\
    mailgun_breaker w' = mailgun_breaker w1.
Proof.
  intros w w1.
  assert (authorized resource forced_body) as H1 by (vm_compute; reflexivity).
  assert (message_of forced_body = Some test_message) as H2
    by (vm_compute; reflexivity).
  assert (send_with_mailgun test_message (dict_get forced_body "fallback") w =
            (Raise (RuntimeError "Forcing mailgun to fail to test fallback."),
             w1)) as H3 by (vm_compute; reflexivity).
  assert (state (mandrill_breaker w1) = Closed) as H4
    by (vm_compute; reflexivity).
  assert (environ (outside w1) !! "MANDRILL_API_KEY" = Some "key-mandrill")
    as H5 by (vm_compute; reflexivity).
  assert (replies (outside w1) = [Status 200]) as H6
    by (vm_compute; reflexivity).
  split; [exact H1|]. split; [exact H2|]. split; [exact H3|].
  split; [exact H4|]. split; [exact H5|]. split; [exact H6|].
  exact (mandrill_serves resource forced_body test_message w _ w1 _ []
           H1 H2 H3 H4 H5 H6).
Defined.
